(** * TodayRoute (Mapic): the trip recording session engine of [src/App.tsx]

    A shallow embedding of the handlers of the [App] component: the GPS
    sample filter [addPoint], [startTracking] and the draft snapshot,
    [handleFinish], [reverseGeocode], [handleFinalSave] and [saveTrips].

    Conventions of the embedding.
    - A JavaScript number that holds a coordinate, an accuracy or a distance
      is a rational [Q] (the idealisation of a finite double: no NaN, no
      rounding); a count of seconds or of milliseconds is an integer [Z].
    - A [Date] is the epoch millisecond it denotes; [toISOString] followed by
      [new Date(...)] is the identity on it, so an ISO timestamp is held as
      that same [Z].
    - React state, the refs and the part of the browser the handlers write
      to (localStorage, alert, console, the network) are the fields of one
      record [App]; a handler is a function on it.  A state setter takes
      effect at once: the handlers only read values that they do not set.
    - [await] is sequential composition; a rejected promise is a thrown
      exception.
    - What the handlers are given from outside (the distance function, the
      locale formatting, the user's answers, the network, the insight and
      poster collaborators, the clock and the handles of timers) comes in as
      parameters.

    Not part of the model: the rendered markup, the error callback of
    [watchPosition], [forceRegenerate] and the deletion of a trip. *)

From Stdlib Require Import QArith Qabs.
From stdpp Require Import base list strings.

#[local] Open Scope string_scope.
#[local] Open Scope list_scope.

(** ** JavaScript values *)

Module Js.

(** [x < y] on numbers. *)
Definition lt (x y : Q) : bool := negb (Qle_bool y x).

(** Truthiness of an optional number: [undefined] and [0] are falsy. *)
Definition truthy_num (x : option Q) : bool :=
  match x with
  | Some v => negb (Qeq_bool v 0)
  | None => false
  end.

(** Truthiness of a string: only the empty string is falsy. *)
Definition truthy (s : string) : bool :=
  match s with
  | EmptyString => false
  | String _ _ => true
  end.

(** [a || b] where [a] is a string. *)
Definition or (a b : string) : string := if truthy a then a else b.

(** [a || b] where [a] may be [undefined]. *)
Definition or_undef (a : option string) (b : string) : string :=
  match a with
  | Some s => or s b
  | None => b
  end.

(** [xs[i]] for an integer index: [undefined] out of range. *)
Definition index {A : Type} (xs : list A) (i : Z) : option A :=
  if (i <? 0)%Z then None else xs !! Z.to_nat i.
#[global] Arguments index : simpl never.

(** [x && f x] on an optional number, as a condition. *)
Definition and_num (x : option Q) (f : Q -> bool) : bool :=
  match x with
  | Some v => truthy_num x && f v
  | None => false
  end.

(** [xs.slice(0, n)]. *)
Definition slice0 {A : Type} (n : nat) (xs : list A) : list A := take n xs.
#[global] Arguments slice0 : simpl never.

End Js.

(** ** Data model ([./types], read off the uses in [App.tsx]) *)

Record GeoPoint : Type := mkGeoPoint {
  lat : Q;
  lng : Q;
  t : Z;
  acc : option Q
}.

Record DraftTrip : Type := mkDraftTrip {
  draft_startedAt : Z;
  draft_startTime : option string;
  draft_isPrivate : bool;
  draft_elapsedSec : Z;
  draft_distanceMeters : Q;
  draft_points : list GeoPoint
}.

Record Trip : Type := mkTrip {
  trip_id : string;
  trip_name : string;
  trip_date : Z;
  trip_startTime : string;
  trip_endTime : string;
  trip_isPrivate : bool;
  trip_distanceMeters : Q;
  trip_durationSec : Z;
  trip_points : list GeoPoint;
  trip_posterPngBase64 : string;
  trip_aiInsight : option string;
  trip_startLabel : string;
  trip_endLabel : string
}.

(** The state of the review screen ([finishScreen] when it is not null). *)
Record FinishScreen : Type := mkFinishScreen {
  fs_show : bool;
  fs_startLabel : string;
  fs_endLabel : string;
  fs_points : list GeoPoint;
  fs_dist : Q;
  fs_time : Z;
  fs_start : Z;
  fs_startTimeStr : string;
  fs_endTimeStr : string
}.

(** The argument object of [generatePosterPng]. *)
Record PosterArgs : Type := mkPosterArgs {
  poster_title : string;
  poster_dateLabel : string;
  poster_timeRange : string;
  poster_distanceMeters : Q;
  poster_durationSec : Z;
  poster_points : list GeoPoint;
  poster_startLabel : string;
  poster_endLabel : string
}.

(** The [address] object of a Nominatim reply; an absent field is [None]. *)
Record Address : Type := mkAddress {
  road : option string;
  neighbourhood : option string;
  suburb : option string;
  city : option string;
  town : option string;
  village : option string;
  county : option string
}.

(** The parsed reply: [data.address] may be missing. *)
Record GeoData : Type := mkGeoData {
  address : option Address
}.

(** A value under a localStorage key: the empty string, which is falsy
    (and which [JSON.parse] rejects); any other text that [JSON.parse]
    rejects; or the value the text parses to. *)
Inductive stored (A : Type) : Type :=
| Blank
| Unparseable
| Json (v : A).
Arguments Blank {A}.
Arguments Unparseable {A}.
Arguments Json {A} v.

(** What a call can throw. *)
Inductive exn : Type :=
| TypeError
| Rejected (reason : string).

(** How an evaluation ends. *)
Inductive completion (A : Type) : Type :=
| Normal (v : A)
| Throw (e : exn).
Arguments Normal {A} v.
Arguments Throw {A} e.

(** ** The component state *)

Record App : Type := mkApp {
  (* useState *)
  trips : list Trip;
  isTracking : bool;
  isPrivate : bool;
  gpsStatus : string;
  distanceMeters : Q;
  elapsedSec : Z;
  startedAt : option Z;
  startTimeLabel : string;
  activeTrip : option Trip;
  isSaving : bool;
  hasDraft : bool;
  finishScreen : option FinishScreen;
  (* React: [setTrips] ran since the last render, so the effect that depends
     on [trips] is due *)
  tripsChanged : bool;
  (* useRef *)
  watchIdRef : option nat;
  timerRef : option nat;
  lastPointRef : option GeoPoint;
  pointsRef : list GeoPoint;
  (* the browser *)
  tripsStore : option (stored (list Trip));
  draftStore : option (stored DraftTrip);
  alerts : list string;
  consoleErrors : list exn;
  fetched : list (Q * Q)
}.

(** Field updates: [set_f v a] is [a] with field [f] replaced by [v]. *)

Definition set_trips (v : list Trip) (a : App) : App :=
  mkApp v (isTracking a) (isPrivate a) (gpsStatus a) (distanceMeters a)
    (elapsedSec a) (startedAt a) (startTimeLabel a) (activeTrip a)
    (isSaving a) (hasDraft a) (finishScreen a) (tripsChanged a) (watchIdRef a)
    (timerRef a) (lastPointRef a) (pointsRef a) (tripsStore a) (draftStore a)
    (alerts a) (consoleErrors a) (fetched a).

Definition set_isTracking (v : bool) (a : App) : App :=
  mkApp (trips a) v (isPrivate a) (gpsStatus a) (distanceMeters a)
    (elapsedSec a) (startedAt a) (startTimeLabel a) (activeTrip a)
    (isSaving a) (hasDraft a) (finishScreen a) (tripsChanged a) (watchIdRef a)
    (timerRef a) (lastPointRef a) (pointsRef a) (tripsStore a) (draftStore a)
    (alerts a) (consoleErrors a) (fetched a).

Definition set_isPrivate (v : bool) (a : App) : App :=
  mkApp (trips a) (isTracking a) v (gpsStatus a) (distanceMeters a)
    (elapsedSec a) (startedAt a) (startTimeLabel a) (activeTrip a)
    (isSaving a) (hasDraft a) (finishScreen a) (tripsChanged a) (watchIdRef a)
    (timerRef a) (lastPointRef a) (pointsRef a) (tripsStore a) (draftStore a)
    (alerts a) (consoleErrors a) (fetched a).

Definition set_gpsStatus (v : string) (a : App) : App :=
  mkApp (trips a) (isTracking a) (isPrivate a) v (distanceMeters a)
    (elapsedSec a) (startedAt a) (startTimeLabel a) (activeTrip a)
    (isSaving a) (hasDraft a) (finishScreen a) (tripsChanged a) (watchIdRef a)
    (timerRef a) (lastPointRef a) (pointsRef a) (tripsStore a) (draftStore a)
    (alerts a) (consoleErrors a) (fetched a).

Definition set_distanceMeters (v : Q) (a : App) : App :=
  mkApp (trips a) (isTracking a) (isPrivate a) (gpsStatus a) v (elapsedSec a)
    (startedAt a) (startTimeLabel a) (activeTrip a) (isSaving a) (hasDraft a)
    (finishScreen a) (tripsChanged a) (watchIdRef a) (timerRef a)
    (lastPointRef a) (pointsRef a) (tripsStore a) (draftStore a) (alerts a)
    (consoleErrors a) (fetched a).

Definition set_elapsedSec (v : Z) (a : App) : App :=
  mkApp (trips a) (isTracking a) (isPrivate a) (gpsStatus a)
    (distanceMeters a) v (startedAt a) (startTimeLabel a) (activeTrip a)
    (isSaving a) (hasDraft a) (finishScreen a) (tripsChanged a) (watchIdRef a)
    (timerRef a) (lastPointRef a) (pointsRef a) (tripsStore a) (draftStore a)
    (alerts a) (consoleErrors a) (fetched a).

Definition set_startedAt (v : option Z) (a : App) : App :=
  mkApp (trips a) (isTracking a) (isPrivate a) (gpsStatus a)
    (distanceMeters a) (elapsedSec a) v (startTimeLabel a) (activeTrip a)
    (isSaving a) (hasDraft a) (finishScreen a) (tripsChanged a) (watchIdRef a)
    (timerRef a) (lastPointRef a) (pointsRef a) (tripsStore a) (draftStore a)
    (alerts a) (consoleErrors a) (fetched a).

Definition set_startTimeLabel (v : string) (a : App) : App :=
  mkApp (trips a) (isTracking a) (isPrivate a) (gpsStatus a)
    (distanceMeters a) (elapsedSec a) (startedAt a) v (activeTrip a)
    (isSaving a) (hasDraft a) (finishScreen a) (tripsChanged a) (watchIdRef a)
    (timerRef a) (lastPointRef a) (pointsRef a) (tripsStore a) (draftStore a)
    (alerts a) (consoleErrors a) (fetched a).

Definition set_activeTrip (v : option Trip) (a : App) : App :=
  mkApp (trips a) (isTracking a) (isPrivate a) (gpsStatus a)
    (distanceMeters a) (elapsedSec a) (startedAt a) (startTimeLabel a) v
    (isSaving a) (hasDraft a) (finishScreen a) (tripsChanged a) (watchIdRef a)
    (timerRef a) (lastPointRef a) (pointsRef a) (tripsStore a) (draftStore a)
    (alerts a) (consoleErrors a) (fetched a).

Definition set_isSaving (v : bool) (a : App) : App :=
  mkApp (trips a) (isTracking a) (isPrivate a) (gpsStatus a)
    (distanceMeters a) (elapsedSec a) (startedAt a) (startTimeLabel a)
    (activeTrip a) v (hasDraft a) (finishScreen a) (tripsChanged a)
    (watchIdRef a) (timerRef a) (lastPointRef a) (pointsRef a) (tripsStore a)
    (draftStore a) (alerts a) (consoleErrors a) (fetched a).

Definition set_hasDraft (v : bool) (a : App) : App :=
  mkApp (trips a) (isTracking a) (isPrivate a) (gpsStatus a)
    (distanceMeters a) (elapsedSec a) (startedAt a) (startTimeLabel a)
    (activeTrip a) (isSaving a) v (finishScreen a) (tripsChanged a)
    (watchIdRef a) (timerRef a) (lastPointRef a) (pointsRef a) (tripsStore a)
    (draftStore a) (alerts a) (consoleErrors a) (fetched a).

Definition set_finishScreen (v : option FinishScreen) (a : App) : App :=
  mkApp (trips a) (isTracking a) (isPrivate a) (gpsStatus a)
    (distanceMeters a) (elapsedSec a) (startedAt a) (startTimeLabel a)
    (activeTrip a) (isSaving a) (hasDraft a) v (tripsChanged a) (watchIdRef a)
    (timerRef a) (lastPointRef a) (pointsRef a) (tripsStore a) (draftStore a)
    (alerts a) (consoleErrors a) (fetched a).

Definition set_tripsChanged (v : bool) (a : App) : App :=
  mkApp (trips a) (isTracking a) (isPrivate a) (gpsStatus a)
    (distanceMeters a) (elapsedSec a) (startedAt a) (startTimeLabel a)
    (activeTrip a) (isSaving a) (hasDraft a) (finishScreen a) v (watchIdRef a)
    (timerRef a) (lastPointRef a) (pointsRef a) (tripsStore a) (draftStore a)
    (alerts a) (consoleErrors a) (fetched a).

Definition set_watchIdRef (v : option nat) (a : App) : App :=
  mkApp (trips a) (isTracking a) (isPrivate a) (gpsStatus a)
    (distanceMeters a) (elapsedSec a) (startedAt a) (startTimeLabel a)
    (activeTrip a) (isSaving a) (hasDraft a) (finishScreen a) (tripsChanged a)
    v (timerRef a) (lastPointRef a) (pointsRef a) (tripsStore a)
    (draftStore a) (alerts a) (consoleErrors a) (fetched a).

Definition set_timerRef (v : option nat) (a : App) : App :=
  mkApp (trips a) (isTracking a) (isPrivate a) (gpsStatus a)
    (distanceMeters a) (elapsedSec a) (startedAt a) (startTimeLabel a)
    (activeTrip a) (isSaving a) (hasDraft a) (finishScreen a) (tripsChanged a)
    (watchIdRef a) v (lastPointRef a) (pointsRef a) (tripsStore a)
    (draftStore a) (alerts a) (consoleErrors a) (fetched a).

Definition set_lastPointRef (v : option GeoPoint) (a : App) : App :=
  mkApp (trips a) (isTracking a) (isPrivate a) (gpsStatus a)
    (distanceMeters a) (elapsedSec a) (startedAt a) (startTimeLabel a)
    (activeTrip a) (isSaving a) (hasDraft a) (finishScreen a) (tripsChanged a)
    (watchIdRef a) (timerRef a) v (pointsRef a) (tripsStore a) (draftStore a)
    (alerts a) (consoleErrors a) (fetched a).

Definition set_pointsRef (v : list GeoPoint) (a : App) : App :=
  mkApp (trips a) (isTracking a) (isPrivate a) (gpsStatus a)
    (distanceMeters a) (elapsedSec a) (startedAt a) (startTimeLabel a)
    (activeTrip a) (isSaving a) (hasDraft a) (finishScreen a) (tripsChanged a)
    (watchIdRef a) (timerRef a) (lastPointRef a) v (tripsStore a)
    (draftStore a) (alerts a) (consoleErrors a) (fetched a).

Definition set_tripsStore (v : option (stored (list Trip))) (a : App) : App :=
  mkApp (trips a) (isTracking a) (isPrivate a) (gpsStatus a)
    (distanceMeters a) (elapsedSec a) (startedAt a) (startTimeLabel a)
    (activeTrip a) (isSaving a) (hasDraft a) (finishScreen a) (tripsChanged a)
    (watchIdRef a) (timerRef a) (lastPointRef a) (pointsRef a) v
    (draftStore a) (alerts a) (consoleErrors a) (fetched a).

Definition set_draftStore (v : option (stored DraftTrip)) (a : App) : App :=
  mkApp (trips a) (isTracking a) (isPrivate a) (gpsStatus a)
    (distanceMeters a) (elapsedSec a) (startedAt a) (startTimeLabel a)
    (activeTrip a) (isSaving a) (hasDraft a) (finishScreen a) (tripsChanged a)
    (watchIdRef a) (timerRef a) (lastPointRef a) (pointsRef a) (tripsStore a)
    v (alerts a) (consoleErrors a) (fetched a).

Definition set_alerts (v : list string) (a : App) : App :=
  mkApp (trips a) (isTracking a) (isPrivate a) (gpsStatus a)
    (distanceMeters a) (elapsedSec a) (startedAt a) (startTimeLabel a)
    (activeTrip a) (isSaving a) (hasDraft a) (finishScreen a) (tripsChanged a)
    (watchIdRef a) (timerRef a) (lastPointRef a) (pointsRef a) (tripsStore a)
    (draftStore a) v (consoleErrors a) (fetched a).

Definition set_consoleErrors (v : list exn) (a : App) : App :=
  mkApp (trips a) (isTracking a) (isPrivate a) (gpsStatus a)
    (distanceMeters a) (elapsedSec a) (startedAt a) (startTimeLabel a)
    (activeTrip a) (isSaving a) (hasDraft a) (finishScreen a) (tripsChanged a)
    (watchIdRef a) (timerRef a) (lastPointRef a) (pointsRef a) (tripsStore a)
    (draftStore a) (alerts a) v (fetched a).

Definition set_fetched (v : list (Q * Q)) (a : App) : App :=
  mkApp (trips a) (isTracking a) (isPrivate a) (gpsStatus a)
    (distanceMeters a) (elapsedSec a) (startedAt a) (startTimeLabel a)
    (activeTrip a) (isSaving a) (hasDraft a) (finishScreen a) (tripsChanged a)
    (watchIdRef a) (timerRef a) (lastPointRef a) (pointsRef a) (tripsStore a)
    (draftStore a) (alerts a) (consoleErrors a) v.

(** ** Handlers that can throw

    An action runs on the component state and ends normally with a value or
    by throwing; the writes made before a throw stay. *)

Definition Act (A : Type) : Type := App -> completion A * App.

Definition ret {A : Type} (v : A) : Act A := fun a => (Normal v, a).

Definition bind {A B : Type} (m : Act A) (k : A -> Act B) : Act B :=
  fun a =>
    match m a with
    | (Normal v, a') => k v a'
    | (Throw e, a') => (Throw e, a')
    end.

Definition throw {A : Type} (e : exn) : Act A := fun a => (Throw e, a).

Definition gets {A : Type} (f : App -> A) : Act A := fun a => (Normal (f a), a).

Definition modify (f : App -> App) : Act unit := fun a => (Normal tt, f a).

(** The outcome of a call into a collaborator. *)
Definition lift {A : Type} (c : completion A) : Act A := fun a => (c, a).

(** [try { body } catch (e) { handler e }]. *)
Definition try_catch {A : Type} (body : Act A) (handler : exn -> Act A) : Act A :=
  fun a =>
    match body a with
    | (Normal v, a') => (Normal v, a')
    | (Throw e, a') => handler e a'
    end.

(** [try { body } finally { final }]: [final] runs on both exits. *)
Definition try_finally {A : Type} (body : Act A) (final : Act unit) : Act A :=
  fun a =>
    match body a with
    | (c, a') =>
        match final a' with
        | (Normal _, a'') => (c, a'')
        | (Throw e, a'') => (Throw e, a'')
        end
    end.

Declare Scope act_scope.
Delimit Scope act_scope with act.
Bind Scope act_scope with Act.

Notation "'let*' x ':=' m 'in' k" := (bind m (fun x => k))
  (at level 10, x name, m at level 100, k at level 200) : act_scope.
Notation "m ';;' k" := (bind m (fun _ => k))
  (at level 100, k at level 200, right associativity) : act_scope.

(** [o.f] where [o] may be [undefined]: reading a property of [undefined]
    throws a TypeError. *)
Definition prop {A B : Type} (o : option A) (f : A -> B) : Act B :=
  match o with
  | Some x => ret (f x)
  | None => throw TypeError
  end.

(** The state setters and browser calls the handlers use. *)
Definition setGpsStatus (s : string) : Act unit := modify (set_gpsStatus s).
Definition setIsTracking (b : bool) : Act unit := modify (set_isTracking b).
Definition setIsPrivate (b : bool) : Act unit := modify (set_isPrivate b).
Definition setDistanceMeters (f : Q -> Q) : Act unit :=
  modify (fun a => set_distanceMeters (f (distanceMeters a)) a).
Definition setElapsedSec (f : Z -> Z) : Act unit :=
  modify (fun a => set_elapsedSec (f (elapsedSec a)) a).
Definition setStartedAt (v : option Z) : Act unit := modify (set_startedAt v).
Definition setStartTimeLabel (s : string) : Act unit :=
  modify (set_startTimeLabel s).
Definition setHasDraft (b : bool) : Act unit := modify (set_hasDraft b).
Definition setIsSaving (b : bool) : Act unit := modify (set_isSaving b).
Definition setTrips (f : list Trip -> list Trip) : Act unit :=
  modify (fun a => set_tripsChanged true (set_trips (f (trips a)) a)).
Definition setActiveTrip (v : option Trip) : Act unit := modify (set_activeTrip v).
Definition setFinishScreen (v : option FinishScreen) : Act unit :=
  modify (set_finishScreen v).
Definition alert (msg : string) : Act unit :=
  modify (fun a => set_alerts (alerts a ++ [msg]) a).
Definition consoleError (e : exn) : Act unit :=
  modify (fun a => set_consoleErrors (consoleErrors a ++ [e]) a).

(** The final state and the completion of an action. *)
Definition exec {A : Type} (m : Act A) (a : App) : App := snd (m a).
Definition outcome {A : Type} (m : Act A) (a : App) : completion A := fst (m a).

(** ** The handlers of [App] *)

Module Handlers.

Section Engine.

(** [haversineMeters] of [./utils/geo]: the distance in meters between two
    points.  The file is not part of the sources at hand; every result
    below holds for any function in its place. *)
Variable haversineMeters : GeoPoint -> GeoPoint -> Q.

(** [formatTimeShort] and [formatDate] print a date in the en-US locale. *)
Variable formatTimeShort : Z -> string.
Variable formatDate : Z -> string.

(** The user's answer to [confirm(message)]. *)
Variable confirm : string -> bool.

(** Whether [navigator.geolocation] exists. *)
Variable geolocation : bool.

(** [fetch] of the Nominatim reverse endpoint followed by [res.json()]:
    the parsed body ([None] for [null]) or a failure. *)
Variable nominatim : Q -> Q -> completion (option GeoData).

(** [generateTripInsight] of [./services/geminiService] and
    [generatePosterPng] of [./utils/canvas]; either may throw. *)
Variable generateTripInsight : Q -> Z -> string -> completion (option string).
Variable generatePosterPng : PosterArgs -> completion string.

#[local] Open Scope act_scope.

(** [loadTrips], lines 13-18, on the text under [TRIPS_KEY]. *)
Definition loadTrips (raw : option (stored (list Trip))) : list Trip :=
  match raw with
  | Some (Json ts) => ts
  | Some Unparseable => []
  | Some Blank => []
  | None => []
  end.

(** The component as first rendered over a given localStorage: the
    initial values of the [useState] and [useRef] calls, lines 50-80. *)
Definition mount (rawTrips : option (stored (list Trip)))
    (rawDraft : option (stored DraftTrip)) : App :=
  {| trips := loadTrips rawTrips;
     isTracking := false;
     isPrivate := false;
     gpsStatus := "Idle";
     distanceMeters := 0;
     elapsedSec := 0;
     startedAt := None;
     startTimeLabel := "";
     activeTrip := None;
     isSaving := false;
     hasDraft := false;
     finishScreen := None;
     tripsChanged := true;
     watchIdRef := None;
     timerRef := None;
     lastPointRef := None;
     pointsRef := [];
     tripsStore := rawTrips;
     draftStore := rawDraft;
     alerts := [];
     consoleErrors := [];
     fetched := [] |}.

(** [saveTrips], lines 20-22. *)
Definition saveTrips (ts : list Trip) : Act unit :=
  modify (set_tripsStore (Some (Json (Js.slice0 50 ts)))).

(** [useEffect(() => saveTrips(trips), [trips])], line 82: runs after the
    first render and after each render in which [trips] changed. *)
Definition effect_saveTrips : Act unit :=
  let* due := gets tripsChanged in
  if due then
    let* ts := gets trips in
    saveTrips ts ;;
    modify (set_tripsChanged false)
  else ret tt.

(** The mount effect, lines 84-87: [if (draft)] holds for a text that is
    there and not empty. *)
Definition effect_detectDraft : Act unit :=
  let* draft := gets draftStore in
  match draft with
  | None => ret tt
  | Some Blank => ret tt
  | Some _ => setHasDraft true
  end.

(** [reverseGeocode], lines 31-47. *)
Definition reverseGeocode (lat lng : Q) : Act string :=
  try_catch
    (modify (fun a => set_fetched (fetched a ++ [(lat, lng)]) a) ;;
     let* data := lift (nominatim lat lng) in
     match data with
     | None => ret ""
     | Some d =>
         match address d with
         | None => ret ""
         | Some addr =>
             let road :=
               Js.or_undef (road addr)
                 (Js.or_undef (neighbourhood addr)
                    (Js.or_undef (suburb addr) "")) in
             let area :=
               Js.or_undef (city addr)
                 (Js.or_undef (town addr)
                    (Js.or_undef (village addr)
                       (Js.or_undef (county addr) ""))) in
             if Js.truthy road && Js.truthy area
             then ret (road +:+ ", " +:+ area)
             else ret (Js.or road (Js.or area ""))
         end
     end)
    (fun err => consoleError err ;; ret "").

(** [stopTracking], lines 89-98.  [clearWatch] and [clearInterval] act on
    the browser only; the timer ref keeps its handle. *)
Definition stopTracking : Act unit :=
  let* w := gets watchIdRef in
  match w with
  | Some _ => modify (set_watchIdRef None)
  | None => ret tt
  end ;;
  modify (set_draftStore None) ;;
  setIsTracking false ;;
  setGpsStatus "Idle".

(** [addPoint], lines 100-114. *)
Definition addPoint (p : GeoPoint) : Act unit :=
  if Js.and_num (acc p) (fun v => Js.lt 150 v) then
    setGpsStatus "Weak GPS ⚠️"
  else
    setGpsStatus "Good GPS ✅" ;;
    let* last := gets lastPointRef in
    let store :=
      modify (set_lastPointRef (Some p)) ;;
      modify (fun a => set_pointsRef (pointsRef a ++ [p]) a) in
    match last with
    | Some l =>
        let d := haversineMeters l p in
        if Js.lt d 1 then ret tt
        else setDistanceMeters (fun prev => prev + d)%Q ;; store
    | None => store
    end.

(** [startTracking], lines 116-150.  [now] is the clock, [watch] and
    [timer] the handles that [watchPosition] and [setInterval] return. *)
Definition startTracking (now : Z) (watch timer : nat)
    (resumingDraft : option DraftTrip) : Act unit :=
  if negb geolocation then alert "GPS not supported."
  else
    match resumingDraft with
    | Some d =>
        modify (set_pointsRef (draft_points d)) ;;
        modify (set_lastPointRef
                  (Js.index (draft_points d)
                     (Z.of_nat (length (draft_points d)) - 1))) ;;
        setDistanceMeters (fun _ => draft_distanceMeters d) ;;
        setElapsedSec (fun _ => draft_elapsedSec d) ;;
        setStartedAt (Some (draft_startedAt d)) ;;
        setStartTimeLabel
          (Js.or_undef (draft_startTime d)
             (formatTimeShort (draft_startedAt d))) ;;
        setIsPrivate (draft_isPrivate d)
    | None =>
        modify (set_pointsRef []) ;;
        modify (set_lastPointRef None) ;;
        setDistanceMeters (fun _ => 0%Q) ;;
        setElapsedSec (fun _ => 0%Z) ;;
        setStartedAt (Some now) ;;
        setStartTimeLabel (formatTimeShort now)
    end ;;
    setIsTracking true ;;
    setGpsStatus "Searching..." ;;
    modify (set_timerRef (Some timer)) ;;
    modify (set_watchIdRef (Some watch)).

(** The one-second tick installed by [startTracking], line 139. *)
Definition tick : Act unit := setElapsedSec (fun s => s + 1)%Z.

(** The draft object built at lines 155-162. *)
Definition draftOf (now : Z) (a : App) : DraftTrip :=
  {| draft_startedAt := default now (startedAt a);
     draft_startTime := Some (startTimeLabel a);
     draft_isPrivate := isPrivate a;
     draft_elapsedSec := elapsedSec a;
     draft_distanceMeters := distanceMeters a;
     draft_points := pointsRef a |}.

(** The body of the ten-second draft interval, lines 154-164; the interval
    exists only while [isTracking]. *)
Definition snapshotDraft (now : Z) : Act unit :=
  let* tracking := gets isTracking in
  if negb tracking then ret tt
  else
    let* draft := gets (draftOf now) in
    modify (set_draftStore (Some (Json draft))).

(** [handleResume], lines 168-179: [if (!raw)] returns for a missing key
    and for the empty string, before anything is parsed or removed. *)
Definition handleResume (now : Z) (watch timer : nat) : Act unit :=
  let* raw := gets draftStore in
  match raw with
  | None => setHasDraft false
  | Some Blank => setHasDraft false
  | Some Unparseable =>
      modify (set_draftStore None) ;;
      setHasDraft false
  | Some (Json draft) =>
      setHasDraft false ;;
      startTracking now watch timer (Some draft)
  end.

(** [handleDiscard], lines 181-184. *)
Definition handleDiscard : Act unit :=
  modify (set_draftStore None) ;;
  setHasDraft false.

(** What happens to a session while it is tracking: a position from
    [watchPosition], the one-second tick, the draft interval firing. *)
Inductive event : Type :=
| Sample (p : GeoPoint)
| Tick
| Snapshot (now : Z).

Definition step (e : event) : Act unit :=
  match e with
  | Sample p => addPoint p
  | Tick => tick
  | Snapshot now => snapshotDraft now
  end.

Fixpoint run (es : list event) : Act unit :=
  match es with
  | [] => ret tt
  | e :: rest => step e ;; run rest
  end.

(** The samples of a position stream, in order of arrival. *)
Definition feed (samples : list GeoPoint) : Act unit := run (map Sample samples).

(** The length of a path: the sum of the distances between consecutive
    points. *)
Fixpoint pathLength (ps : list GeoPoint) : Q :=
  match ps with
  | a :: (b :: _) as rest => (haversineMeters a b + pathLength rest)%Q
  | _ => 0%Q
  end.

(** The sample filter as a relation between the state before a sample and
    the state after it, one rule per way out of [addPoint]: the sample is
    weak; it is noise around the anchor; it moved on from the anchor; it is
    the first point. *)
Inductive filtered (p : GeoPoint) (a : App) : App -> Prop :=
| filtered_weak (v : Q) :
    acc p = Some v ->
    (150 < v)%Q ->
    filtered p a (set_gpsStatus "Weak GPS ⚠️" a)
| filtered_noise (l : GeoPoint) :
    (forall v, acc p = Some v -> (v <= 150)%Q) ->
    lastPointRef a = Some l ->
    (haversineMeters l p < 1)%Q ->
    filtered p a (set_gpsStatus "Good GPS ✅" a)
| filtered_moved (l : GeoPoint) :
    (forall v, acc p = Some v -> (v <= 150)%Q) ->
    lastPointRef a = Some l ->
    (1 <= haversineMeters l p)%Q ->
    filtered p a
      (set_pointsRef (pointsRef a ++ [p])
         (set_lastPointRef (Some p)
            (set_distanceMeters (distanceMeters a + haversineMeters l p)%Q
               (set_gpsStatus "Good GPS ✅" a))))
| filtered_first :
    (forall v, acc p = Some v -> (v <= 150)%Q) ->
    lastPointRef a = None ->
    filtered p a
      (set_pointsRef (pointsRef a ++ [p])
         (set_lastPointRef (Some p) (set_gpsStatus "Good GPS ✅" a))).

(** What ties the counters of a session together: the anchor is the last
    stored point and the distance is the length of the stored path. *)
Definition coherent (a : App) : Prop :=
  lastPointRef a = last (pointsRef a) /\
  (distanceMeters a == pathLength (pointsRef a))%Q.

(** The session data of the component: what a draft is meant to carry,
    and the anchor. *)
Definition sessionOf (a : App)
  : list GeoPoint * option GeoPoint * Q * Z * option Z * string * bool :=
  (pointsRef a, lastPointRef a, distanceMeters a, elapsedSec a, startedAt a,
   startTimeLabel a, isPrivate a).

(** A session in progress: tracking is on, the anchor is the last stored
    point, the start is set and the start label is the one that
    [startTracking] would restore. *)
Definition inProgress (a : App) : Prop :=
  isTracking a = true /\
  lastPointRef a = last (pointsRef a) /\
  exists started, startedAt a = Some started /\
    Js.or (startTimeLabel a) (formatTimeShort started) = startTimeLabel a.

(** The component after a start of the process: mounted over what
    localStorage holds, its two mount effects run. *)
Definition boot (rawTrips : option (stored (list Trip)))
    (rawDraft : option (stored DraftTrip)) : App :=
  exec (effect_saveTrips ;; effect_detectDraft) (mount rawTrips rawDraft).

(** [handleFinish], lines 186-223.  [Promise.all] of the two lookups: both
    calls are started in order and both results are awaited. *)
Definition handleFinish (now : Z) : Act unit :=
  let* pts := gets pointsRef in
  if (length pts <? 2)%nat && negb (confirm "No movement detected. Stop anyway?")
  then ret tt
  else
    setIsSaving true ;;
    let* snapPoints := gets pointsRef in
    let* snapDist := gets distanceMeters in
    let* snapTime := gets elapsedSec in
    let* started := gets startedAt in
    let snapStart := default now started in
    let snapEndTime := now in
    stopTracking ;;
    let* private := gets isPrivate in
    let* labels :=
      if negb private then
        let first := Js.index snapPoints 0 in
        let final := Js.index snapPoints (Z.of_nat (length snapPoints) - 1) in
        let* lat0 := prop first lat in
        let* lng0 := prop first lng in
        let* sRes := reverseGeocode lat0 lng0 in
        let* lat1 := prop final lat in
        let* lng1 := prop final lng in
        let* eRes := reverseGeocode lat1 lng1 in
        ret (Js.or sRes "Start", Js.or eRes "End")
      else ret ("Start", "End") in
    setIsSaving false ;;
    let* label := gets startTimeLabel in
    setFinishScreen
      (Some {| fs_show := true;
               fs_startLabel := fst labels;
               fs_endLabel := snd labels;
               fs_points := snapPoints;
               fs_dist := snapDist;
               fs_time := snapTime;
               fs_start := snapStart;
               fs_startTimeStr := label;
               fs_endTimeStr := formatTimeShort snapEndTime |}).

(** [handleFinish] goes past its guard: two points or more were recorded,
    or the user said yes. *)
Definition proceeds (a : App) : Prop :=
  (2 <= length (pointsRef a))%nat \/
  confirm "No movement detected. Stop anyway?" = true.

(** The review screen's label inputs, lines 402 and 412. *)
Definition editStartLabel (text : string) : Act unit :=
  let* fs := gets finishScreen in
  match fs with
  | Some f =>
      setFinishScreen
        (Some (mkFinishScreen (fs_show f) text (fs_endLabel f) (fs_points f)
                 (fs_dist f) (fs_time f) (fs_start f) (fs_startTimeStr f)
                 (fs_endTimeStr f)))
  | None => ret tt
  end.

Definition editEndLabel (text : string) : Act unit :=
  let* fs := gets finishScreen in
  match fs with
  | Some f =>
      setFinishScreen
        (Some (mkFinishScreen (fs_show f) (fs_startLabel f) text (fs_points f)
                 (fs_dist f) (fs_time f) (fs_start f) (fs_startTimeStr f)
                 (fs_endTimeStr f)))
  | None => ret tt
  end.

(** The Trip record that [handleFinalSave] assembles, lines 248-262. *)
Definition newTrip (id : string) (f : FinishScreen) (private : bool)
    (poster : string) (insight : option string) : Trip :=
  {| trip_id := id;
     trip_name := "ACTIVITY";
     trip_date := fs_start f;
     trip_startTime := fs_startTimeStr f;
     trip_endTime := fs_endTimeStr f;
     trip_isPrivate := private;
     trip_distanceMeters := fs_dist f;
     trip_durationSec := fs_time f;
     trip_points := fs_points f;
     trip_posterPngBase64 := poster;
     trip_aiInsight := insight;
     trip_startLabel := fs_startLabel f;
     trip_endLabel := fs_endLabel f |}.

(** The argument of [generatePosterPng] in [handleFinalSave], lines
    237-246. *)
Definition posterRequest (f : FinishScreen) : PosterArgs :=
  {| poster_title := "ACTIVITY";
     poster_dateLabel := formatDate (fs_start f);
     poster_timeRange := fs_startTimeStr f +:+ " – " +:+ fs_endTimeStr f;
     poster_distanceMeters := fs_dist f;
     poster_durationSec := fs_time f;
     poster_points := fs_points f;
     poster_startLabel := fs_startLabel f;
     poster_endLabel := fs_endLabel f |}.

(** [handleFinalSave], lines 225-272.  [id] is the value of [uid()]. *)
Definition handleFinalSave (id : string) : Act unit :=
  let* fs := gets finishScreen in
  match fs with
  | None => ret tt
  | Some f =>
      setIsSaving true ;;
      let tripName := "ACTIVITY" in
      try_finally
        (try_catch
           (let* insight :=
              lift (generateTripInsight (fs_dist f) (fs_time f) tripName) in
            let* poster := lift (generatePosterPng (posterRequest f)) in
            let* private := gets isPrivate in
            let trip := newTrip id f private poster insight in
            setTrips (fun prev => trip :: prev) ;;
            setActiveTrip (Some trip) ;;
            setFinishScreen None)
           (fun e => alert "Poster failed to generate, but trip is saved."))
        (setIsSaving false)
  end.

(** A commit as the user sees it: the handler, then the render and its
    effect. *)
Definition commit (id : string) : Act unit :=
  handleFinalSave id ;;
  effect_saveTrips.

(** One commit per review summary of [reqs], each with its [uid()]; the
    summary is put on screen the way [handleFinish] leaves it. *)
Fixpoint commits (reqs : list (FinishScreen * string)) : Act unit :=
  match reqs with
  | [] => ret tt
  | (f, id) :: rest =>
      setFinishScreen (Some f) ;;
      commit id ;;
      commits rest
  end.

(** The archive on disk is up to date with the one in memory: no effect is
    due and the store holds what [saveTrips] writes for [trips]. *)
Definition synced (a : App) : Prop :=
  tripsChanged a = false /\
  tripsStore a = Some (Json (Js.slice0 50 (trips a))).

(** The outcome of the finalization steps of [handleFinalSave] for a review
    summary: the Trip it assembles, or what the first failing collaborator
    threw. *)
Definition finalize (id : string) (f : FinishScreen) (private : bool)
  : completion Trip :=
  match generateTripInsight (fs_dist f) (fs_time f) "ACTIVITY" with
  | Throw e => Throw e
  | Normal insight =>
      match generatePosterPng (posterRequest f) with
      | Throw e => Throw e
      | Normal poster => Normal (newTrip id f private poster insight)
      end
  end.

(** The Trips that a run of commits adds, oldest first. *)
Fixpoint committed (private : bool) (reqs : list (FinishScreen * string))
  : list Trip :=
  match reqs with
  | [] => []
  | (f, id) :: rest =>
      match finalize id f private with
      | Normal trip => [trip]
      | Throw _ => []
      end ++ committed private rest
  end.

End Engine.

End Handlers.

Import Handlers.

(** ** The rest of the screen: the archive viewer and the buttons *)

Module Screen.

(** The argument object of [generatePosterPng] as [forceRegenerate] builds
    it: there the time range may be [undefined]. *)
Record PosterOptions : Type := mkPosterOptions {
  opt_title : string;
  opt_dateLabel : string;
  opt_timeRange : option string;
  opt_distanceMeters : Q;
  opt_durationSec : Z;
  opt_points : list GeoPoint;
  opt_startLabel : string;
  opt_endLabel : string
}.

Section Buttons.

Variable formatDate : Z -> string.
Variable confirm : string -> bool.

(** [generatePosterPng] of [./utils/canvas] on the argument type above. *)
Variable generatePosterPng : PosterOptions -> completion string.

#[local] Open Scope act_scope.

(** The argument of [generatePosterPng] in [forceRegenerate], lines
    277-287. *)
Definition regenerateRequest (trip : Trip) : PosterOptions :=
  {| opt_title := trip_name trip;
     opt_dateLabel := formatDate (trip_date trip);
     opt_timeRange :=
       if Js.truthy (trip_startTime trip) && Js.truthy (trip_endTime trip)
       then Some (trip_startTime trip +:+ " – " +:+ trip_endTime trip)
       else None;
     opt_distanceMeters := trip_distanceMeters trip;
     opt_durationSec := trip_durationSec trip;
     opt_points := trip_points trip;
     opt_startLabel := Js.or (trip_startLabel trip) "Start";
     opt_endLabel := Js.or (trip_endLabel trip) "End" |}.

(** [{ ...trip, posterPngBase64: poster }], line 288. *)
Definition withPoster (trip : Trip) (poster : string) : Trip :=
  mkTrip (trip_id trip) (trip_name trip) (trip_date trip)
    (trip_startTime trip) (trip_endTime trip) (trip_isPrivate trip)
    (trip_distanceMeters trip) (trip_durationSec trip) (trip_points trip)
    poster (trip_aiInsight trip) (trip_startLabel trip) (trip_endLabel trip).

(** [forceRegenerate], lines 274-294: there is no catch, a throw of the
    renderer leaves the handler after the finally block. *)
Definition forceRegenerate (trip : Trip) : Act unit :=
  setIsSaving true ;;
  try_finally
    (let* poster := lift (generatePosterPng (regenerateRequest trip)) in
     let updated := withPoster trip poster in
     setTrips
       (map (fun t =>
               if String.eqb (trip_id t) (trip_id trip) then updated else t)) ;;
     setActiveTrip (Some updated))
    (setIsSaving false).

(** The Delete History button, line 506; it is rendered only while a trip
    is on display. *)
Definition onDeleteHistory : Act unit :=
  let* shown := gets activeTrip in
  match shown with
  | None => ret tt
  | Some active =>
      if confirm "Permanently delete this path?" then
        setTrips
          (List.filter
             (fun t => negb (String.eqb (trip_id t) (trip_id active)))) ;;
        setActiveTrip None
      else ret tt
  end.

(** The Back to recording button, line 426. *)
Definition onBackToRecording : Act unit := setFinishScreen None.

(** A card of the archive, line 441. *)
Definition onOpenTrip (trip : Trip) : Act unit := setActiveTrip (Some trip).

End Buttons.

(** The label that [reverseGeocode] makes of the outcome of its lookup,
    lines 37-45. *)
Definition placeLabel (reply : completion (option GeoData)) : string :=
  match reply with
  | Normal (Some {| address := Some addr |}) =>
      let road :=
        Js.or_undef (road addr)
          (Js.or_undef (neighbourhood addr) (Js.or_undef (suburb addr) "")) in
      let area :=
        Js.or_undef (city addr)
          (Js.or_undef (town addr)
             (Js.or_undef (village addr) (Js.or_undef (county addr) ""))) in
      if Js.truthy road && Js.truthy area then road +:+ ", " +:+ area
      else Js.or road (Js.or area "")
  | _ => ""
  end.

(** A field of a reply that [||] takes: present and not empty. *)
Definition usable (field : option string) : bool :=
  match field with
  | Some s => Js.truthy s
  | None => false
  end.

(** The number of ticks among the events of a session. *)
Fixpoint ticks (es : list event) : Z :=
  match es with
  | [] => 0
  | Tick :: rest => 1 + ticks rest
  | _ :: rest => ticks rest
  end.

(** Each point of a path lies at least a meter from the one before. *)
Fixpoint spaced (haversineMeters : GeoPoint -> GeoPoint -> Q)
    (ps : list GeoPoint) : Prop :=
  match ps with
  | a :: (b :: _) as rest =>
      (1 <= haversineMeters a b)%Q /\ spaced haversineMeters rest
  | _ => True
  end.

End Screen.

Import Screen.

(** ** Concrete inputs for the examples *)

Module Examples.

(** A distance to run the filter on: the taxicab distance on the degree
    grid, at 111320 meters per degree. *)
Definition gridMeters (a b : GeoPoint) : Q :=
  (111320 * (Qabs (lat a - lat b) + Qabs (lng a - lng b)))%Q.

Definition clock (ms : Z) : string := "9:00 AM".
Definition calendar (ms : Z) : string := "02 November 2026".
Definition yes (msg : string) : bool := true.
Definition no (msg : string) : bool := false.

(** The samples of the scenario of section 8 of the specification. *)
Definition A : GeoPoint := mkGeoPoint 0 0 0 None.
Definition B : GeoPoint := mkGeoPoint 0 (1 # 10000) 5000 (Some 10%Q).
Definition C : GeoPoint := mkGeoPoint 0 (2 # 10000) 10000 (Some 200%Q).
Definition D : GeoPoint := mkGeoPoint 0 (3 # 10000) 15000 (Some 10%Q).
(** Half a meter east of [B]. *)
Definition B' : GeoPoint := mkGeoPoint 0 (1045 # 10000000) 6000 (Some 5%Q).

Definition offline (lat lng : Q) : completion (option GeoData) :=
  Throw (Rejected "Failed to fetch").
Definition online (lat lng : Q) : completion (option GeoData) :=
  Normal (Some (mkGeoData (Some (mkAddress (Some "Main Street") None None
                                   (Some "Springfield") None None None)))).

Definition insightOk (dist : Q) (time : Z) (title : string)
  : completion (option string) := Normal (Some "A fine walk.").
Definition insightAbsent (dist : Q) (time : Z) (title : string)
  : completion (option string) := Normal None.
Definition insightFails (dist : Q) (time : Z) (title : string)
  : completion (option string) := Throw (Rejected "quota exceeded").
Definition posterOk (args : PosterArgs) : completion string :=
  Normal "data:image/png;base64,AAAA".
Definition posterFails (args : PosterArgs) : completion string :=
  Throw (Rejected "canvas context unavailable").

(** A freshly mounted component over an empty localStorage, after its
    mount effects. *)
Definition fresh : App := boot None None.

(** A session that has just started, public and private. *)
Definition started : App :=
  exec (startTracking clock true 1000 1 2 None) fresh.
Definition startedPrivate : App :=
  exec (startTracking clock true 1000 1 2 None) (set_isPrivate true fresh).

(** The session when [A] and [B] have arrived, and when all four have:
    it recorded [A], [B], [D]. *)
Definition atB : App := exec (feed gridMeters [A; B]) started.
Definition tracked : App := exec (feed gridMeters [A; B; C; D]) started.
Definition trackedPrivate : App :=
  exec (feed gridMeters [A; B; C; D]) startedPrivate.

(** That session finished as a public trip, and its review summary. *)
Definition reviewing : App :=
  exec (handleFinish clock yes online 20000) tracked.

Definition summary : FinishScreen :=
  mkFinishScreen true "Main Street, Springfield" "Main Street, Springfield"
    [A; B; D] (distanceMeters tracked) 0 1000 "9:00 AM" "9:00 AM".

Definition someTrip : Trip :=
  newTrip "TR-0" summary false "data:image/png;base64,AAAA" None.

(** A component whose archive already holds fifty trips. *)
Definition full : App := boot (Some (Json (replicate 50 someTrip))) None.

(** A trip of the archive put on display in the viewer. *)
Definition viewing : App := exec (onOpenTrip someTrip) full.

(** A lookup that answers with an address none of whose fields is set. *)
Definition nowhere (lat lng : Q) : completion (option GeoData) :=
  Normal (Some (mkGeoData (Some (mkAddress None None None None None None None)))).

(** The poster renderer as the viewer calls it. *)
Definition rendererOk (args : PosterOptions) : completion string :=
  Normal "data:image/png;base64,BBBB".
Definition rendererFails (args : PosterOptions) : completion string :=
  Throw (Rejected "canvas context unavailable").

(** A component that holds an unparseable draft, and one that holds the
    draft of the session at [B]. *)
Definition garbled : App := boot None (Some Unparseable).

(** A component started over the empty string under the draft key. *)
Definition blanked : App := boot None (Some Blank).
Definition survivor : App := boot None (Some (Json (draftOf 7000 atB))).

End Examples.

(** ** The sample filter *)

(** Unfolds the plumbing of actions, leaving the state updates. *)
Ltac act :=
  unfold exec, outcome, setGpsStatus, setIsSaving, setIsTracking, setIsPrivate,
    setDistanceMeters, setElapsedSec, setStartedAt, setStartTimeLabel,
    setHasDraft, setTrips, setActiveTrip, setFinishScreen, alert, consoleError,
    try_finally, try_catch, lift, prop, bind, throw, gets, modify, ret;
  cbn.

Section NumberFacts.

Lemma lt_true (x y : Q) : Js.lt x y = true <-> (x < y)%Q.
Proof.
  unfold Js.lt. rewrite negb_true_iff, <- not_true_iff_false, Qle_bool_iff.
  split; [apply Qnot_le_lt | apply Qlt_not_le].
Qed.

Lemma lt_false (x y : Q) : Js.lt x y = false <-> (y <= x)%Q.
Proof. unfold Js.lt. rewrite negb_false_iff. apply Qle_bool_iff. Qed.

(** The accuracy test of [addPoint] fires exactly on a present accuracy
    above 150. *)
Lemma weak_iff (x : option Q) :
  Js.and_num x (fun v => Js.lt 150 v) = true <->
  exists v, x = Some v /\ (150 < v)%Q.
Proof.
  destruct x as [v|]; cbn.
  - rewrite andb_true_iff, lt_true, negb_true_iff. split.
    + intros [_ H]. eauto.
    + intros (w & [= <-] & H). split; [|done].
      apply not_true_iff_false. rewrite Qeq_bool_iff. intros E.
      rewrite E in H. discriminate H.
  - split; [done | intros (v & [=] & _)].
Qed.

Lemma not_weak_iff (x : option Q) :
  Js.and_num x (fun v => Js.lt 150 v) = false <->
  forall v, x = Some v -> (v <= 150)%Q.
Proof.
  rewrite <- not_true_iff_false, weak_iff. split.
  - intros H v Hv. apply Qnot_lt_le. intros Hgt. apply H. eauto.
  - intros H (v & Hv & Hgt). apply (Qlt_not_le _ _ Hgt). by apply H.
Qed.

Lemma index_last {A : Type} (xs : list A) :
  Js.index xs (Z.of_nat (length xs) - 1) = last xs.
Proof.
  unfold Js.index. rewrite last_lookup. destruct xs as [|x xs]; [done|].
  destruct (Z.ltb_spec (Z.of_nat (length (x :: xs)) - 1) 0) as [H|H].
  - cbn [length] in H. lia.
  - f_equal. cbn [length]. lia.
Qed.

End NumberFacts.

Section SampleFilter.

Variable haversineMeters : GeoPoint -> GeoPoint -> Q.

#[local] Abbreviation addPoint := (Handlers.addPoint haversineMeters).
#[local] Abbreviation filtered := (Handlers.filtered haversineMeters).
#[local] Abbreviation step := (Handlers.step haversineMeters).
#[local] Abbreviation run := (Handlers.run haversineMeters).
#[local] Abbreviation feed := (Handlers.feed haversineMeters).
#[local] Abbreviation pathLength := (Handlers.pathLength haversineMeters).
#[local] Abbreviation coherent := (Handlers.coherent haversineMeters).

(** [addPoint] never throws, and what it does to the state is one of the
    four rules of [filtered]. *)
Lemma addPoint_filtered p a :
  outcome (addPoint p) a = Normal tt /\ filtered p a (exec (addPoint p) a).
Proof.
  unfold Handlers.addPoint.
  destruct (Js.and_num (acc p) (fun v => Js.lt 150 v)) eqn:H.
  - apply weak_iff in H as (v & Hv & Hgt). split; [done|].
    by apply (filtered_weak haversineMeters p a v).
  - pose proof (proj1 (not_weak_iff _) H) as Hacc. act.
    destruct (lastPointRef a) as [l|] eqn:Hl.
    + destruct (Js.lt (haversineMeters l p) 1) eqn:Hd; (split; [done|]).
      * apply lt_true in Hd. by apply (filtered_noise haversineMeters p a l).
      * apply lt_false in Hd. by apply (filtered_moved haversineMeters p a l).
    + split; [done|]. by apply (filtered_first haversineMeters p a).
Qed.

Lemma step_normal e a : outcome (step e) a = Normal tt.
Proof.
  destruct e as [p| |now]; cbn [Handlers.step].
  - apply addPoint_filtered.
  - reflexivity.
  - unfold snapshotDraft. act. by destruct (isTracking a).
Qed.

Lemma run_cons e es a :
  exec (run (e :: es)) a = exec (run es) (exec (step e) a).
Proof.
  pose proof (step_normal e a) as H. unfold exec, outcome in *.
  cbn [Handlers.run]. unfold bind.
  destruct (step e a) as [c a']. cbn in H. subst c. reflexivity.
Qed.

Lemma run_app es1 es2 a :
  exec (run (es1 ++ es2)) a = exec (run es2) (exec (run es1) a).
Proof.
  revert a. induction es1 as [|e es1 IH]; intros a; [done|].
  rewrite <- app_comm_cons, !run_cons. apply IH.
Qed.

Lemma feed_snoc samples p a :
  exec (feed (samples ++ [p])) a = exec (addPoint p) (exec (feed samples) a).
Proof.
  unfold Handlers.feed. rewrite map_app, run_app. cbn [map].
  rewrite run_cons. reflexivity.
Qed.

(** Appending a point to a path adds the distance from its last point. *)
Lemma pathLength_snoc ps p :
  (pathLength (ps ++ [p]) ==
   pathLength ps + match last ps with
                   | Some l => haversineMeters l p
                   | None => 0
                   end)%Q.
Proof.
  induction ps as [|a [|b ps] IH]; cbn.
  - reflexivity.
  - ring.
  - cbn in IH. rewrite IH. ring.
Qed.

(** Each rule of the filter keeps the session coherent, never lowers the
    distance, and stores the sample or nothing. *)
Lemma filtered_coherent p a a' : filtered p a a' -> coherent a -> coherent a'.
Proof.
  intros Hf [Hl Hd].
  destruct Hf as [v Hv Hgt | l Hacc El Hnear | l Hacc El Hfar | Hacc El];
    split; cbn; try done.
  - by rewrite last_snoc.
  - rewrite pathLength_snoc, <- Hl, El, Hd. reflexivity.
  - by rewrite last_snoc.
  - rewrite pathLength_snoc, <- Hl, El, Hd. ring.
Qed.

Lemma filtered_distance_le p a a' :
  filtered p a a' -> (distanceMeters a <= distanceMeters a')%Q.
Proof.
  intros [v Hv Hgt | l Hacc El Hnear | l Hacc El Hfar | Hacc El]; cbn;
    try apply Qle_refl.
  rewrite <- (Qplus_0_r (distanceMeters a)) at 1.
  apply Qplus_le_r. by eapply Qle_trans; [|exact Hfar].
Qed.

Lemma filtered_points p a a' :
  filtered p a a' ->
  pointsRef a' = pointsRef a \/ pointsRef a' = pointsRef a ++ [p].
Proof.
  intros [v Hv Hgt | l Hacc El Hnear | l Hacc El Hfar | Hacc El]; cbn; auto.
Qed.

Lemma step_coherent e a : coherent a -> coherent (exec (step e) a).
Proof.
  destruct e as [p| |now]; cbn [Handlers.step].
  - apply filtered_coherent with p, addPoint_filtered.
  - done.
  - intros H. unfold snapshotDraft. act. by destruct (isTracking a).
Qed.

Lemma run_coherent es a : coherent a -> coherent (exec (run es) a).
Proof.
  revert a. induction es as [|e es IH]; intros a H; [done|].
  rewrite run_cons. by apply IH, step_coherent.
Qed.

(** The stored points are samples, in their order of arrival. *)
Lemma feed_points samples a :
  exists kept, kept `sublist_of` samples /\
    pointsRef (exec (feed samples) a) = pointsRef a ++ kept.
Proof.
  induction samples as [|p samples IH] using rev_ind.
  - exists []. split; [done|]. cbn. by rewrite app_nil_r.
  - destruct IH as (kept & Hs & Hk). rewrite feed_snoc.
    destruct (filtered_points p _ _
                (proj2 (addPoint_filtered p (exec (feed samples) a))))
      as [E|E]; rewrite E, Hk.
    + exists kept. split; [by apply sublist_inserts_r | done].
    + exists (kept ++ [p]).
      split; [by apply sublist_app | by rewrite app_assoc].
Qed.

Variable formatTimeShort : Z -> string.

#[local] Abbreviation startTracking :=
  (Handlers.startTracking formatTimeShort true).
#[local] Abbreviation handleResume :=
  (Handlers.handleResume formatTimeShort true).
#[local] Abbreviation inProgress := (Handlers.inProgress formatTimeShort).

(** A session that starts from scratch starts coherent. *)
Lemma startTracking_fresh_coherent now watch timer a :
  coherent (exec (startTracking now watch timer None) a).
Proof. split; reflexivity. Qed.

(** C1. For every sequence of GPS samples fed through [addPoint] in a
    session started by [startTracking]: the sample that follows never
    lowers [distanceMeters]; after the whole sequence [distanceMeters] is
    the sum of the distances between consecutive stored points, and the
    stored points are samples of the sequence in their order of arrival.
    So a rejected sample and the first accepted point add nothing. *)
Theorem C1_distance_is_length_of_accepted_path
    now watch timer a (samples : list GeoPoint) (p : GeoPoint) :
  let s0 := exec (startTracking now watch timer None) a in
  let s := exec (feed samples) s0 in
  (distanceMeters s <= distanceMeters (exec (feed (samples ++ [p])) s0))%Q /\
  (distanceMeters s == pathLength (pointsRef s))%Q /\
  pointsRef s `sublist_of` samples.
Proof.
  intros s0 s. split; [|split].
  - rewrite feed_snoc. apply filtered_distance_le with p, addPoint_filtered.
  - apply (run_coherent (map Sample samples) s0).
    apply startTracking_fresh_coherent.
  - destruct (feed_points samples s0) as (kept & Hs & Hk).
    subst s. rewrite Hk. exact Hs.
Qed.

(** C2. A sample whose accuracy is present and above 150 sets the status to
    weak signal and leaves [distanceMeters], the stored points and the
    anchor as they were, wherever the sample lies.  A sample without an
    accuracy gets the good-signal status, and is stored whenever there is
    no anchor or it lies at least a meter from the anchor. *)
Theorem C2_weak_accuracy_rejected (a : App) (p : GeoPoint) :
  let a' := exec (addPoint p) a in
  (forall v, acc p = Some v -> (150 < v)%Q ->
     gpsStatus a' = "Weak GPS ⚠️" /\
     distanceMeters a' = distanceMeters a /\
     pointsRef a' = pointsRef a /\
     lastPointRef a' = lastPointRef a) /\
  (acc p = None ->
     gpsStatus a' = "Good GPS ✅" /\
     (match lastPointRef a with
      | Some l => (1 <= haversineMeters l p)%Q
      | None => True
      end ->
      pointsRef a' = pointsRef a ++ [p] /\ lastPointRef a' = Some p)).
Proof.
  intros a'. destruct (addPoint_filtered p a) as [_ Hf]. fold a' in Hf.
  split.
  - intros v Hv Hgt.
    destruct Hf as [w Hw _ | l Hacc _ _ | l Hacc _ _ | Hacc _]; [done|..];
      by destruct (Qlt_not_le _ _ Hgt (Hacc v Hv)).
  - intros Hnone.
    destruct Hf as [w Hw _ | l _ El Hnear | l _ El _ | _ El];
      [congruence | | done..].
    split; [done|]. rewrite El. intros Hfar.
    by destruct (Qlt_not_le _ _ Hnear Hfar).
Qed.

(** C3. With an anchor in place, a sample that passes the accuracy test
    and lies less than a meter from the anchor leaves [distanceMeters], the
    stored points and the anchor as they were, however small its accuracy;
    the status still becomes good signal. *)
Theorem C3_jitter_rejected (a : App) (p l : GeoPoint) :
  lastPointRef a = Some l ->
  (forall v, acc p = Some v -> (v <= 150)%Q) ->
  (haversineMeters l p < 1)%Q ->
  let a' := exec (addPoint p) a in
  distanceMeters a' = distanceMeters a /\
  pointsRef a' = pointsRef a /\
  lastPointRef a' = lastPointRef a /\
  gpsStatus a' = "Good GPS ✅".
Proof.
  intros Hl Hacc Hd a'. destruct (addPoint_filtered p a) as [_ Hf].
  fold a' in Hf.
  destruct Hf as [w Hw Hgt | l' _ _ _ | l' _ El Hfar | _ El].
  - by destruct (Qlt_not_le _ _ Hgt (Hacc w Hw)).
  - done.
  - assert (l' = l) as -> by congruence.
    by destruct (Qlt_not_le _ _ Hd Hfar).
  - congruence.
Qed.

(** ** Drafts *)

Lemma startTracking_inProgress now watch timer draft a :
  inProgress (exec (startTracking now watch timer draft) a).
Proof.
  destruct draft as [d|]; cbn.
  - split; [done|]. split; [apply index_last|].
    exists (draft_startedAt d). split; [done|].
    destruct (draft_startTime d) as [[|c s]|]; cbn; try done;
      by destruct (formatTimeShort (draft_startedAt d)).
  - split; [done|]. split; [done|]. exists now. split; [done|].
    by destruct (formatTimeShort now).
Qed.

Lemma filtered_inProgress p a a' :
  filtered p a a' -> inProgress a -> inProgress a'.
Proof.
  intros Hf (Ht & Hl & Hs).
  destruct Hf as [v Hv Hgt | l Hacc El Hnear | l Hacc El Hfar | Hacc El];
    (split; [done|]); (split; [|done]); cbn; try done;
    by rewrite last_snoc.
Qed.

Lemma step_inProgress e a : inProgress a -> inProgress (exec (step e) a).
Proof.
  destruct e as [p| |now]; cbn [Handlers.step].
  - apply filtered_inProgress with p, addPoint_filtered.
  - done.
  - intros H. pose proof H as (Ht & _). unfold snapshotDraft. act.
    by rewrite Ht.
Qed.

Lemma run_inProgress es a : inProgress a -> inProgress (exec (run es) a).
Proof.
  revert a. induction es as [|e es IH]; intros a H; [done|].
  rewrite run_cons. by apply IH, step_inProgress.
Qed.

(** Snapshot, process death, restart, resume: the session comes back. *)
Lemma snapshot_resume_roundtrip a now1 now2 watch timer :
  inProgress a ->
  let killed := exec (snapshotDraft now1) a in
  let resumed :=
    exec (handleResume now2 watch timer)
      (boot (tripsStore killed) (draftStore killed)) in
  sessionOf resumed = sessionOf a.
Proof.
  intros (Ht & Hl & started & Hs & Hlabel). unfold snapshotDraft. act.
  rewrite Ht. cbn. unfold sessionOf. cbn.
  rewrite index_last, <- Hl, Hs. cbn. rewrite Hlabel. reflexivity.
Qed.

(** C8. Resuming a draft makes its points, distance, elapsed seconds,
    start time and privacy flag the live session state, with the last
    point of the draft as the anchor.  The sample that follows either
    changes nothing or is appended and adds only its distance from that
    anchor.  A session in progress that is snapshotted, lost with its
    process and resumed after the restart comes back with the same points,
    anchor, distance, elapsed seconds, start time, start label and privacy
    flag. *)
Theorem C8_resume_restores_snapshot
    (d : DraftTrip) (a : App) (now : Z) (watch timer : nat) :
  let s := exec (startTracking now watch timer (Some d)) a in
  (pointsRef s = draft_points d /\
   distanceMeters s = draft_distanceMeters d /\
   elapsedSec s = draft_elapsedSec d /\
   startedAt s = Some (draft_startedAt d) /\
   isPrivate s = draft_isPrivate d /\
   lastPointRef s = last (draft_points d) /\
   isTracking s = true) /\
  (forall p : GeoPoint,
     let s' := exec (addPoint p) s in
     (pointsRef s' = draft_points d /\
      distanceMeters s' = draft_distanceMeters d) \/
     (pointsRef s' = draft_points d ++ [p] /\
      lastPointRef s' = Some p /\
      distanceMeters s' =
        match last (draft_points d) with
        | Some l => (draft_distanceMeters d + haversineMeters l p)%Q
        | None => draft_distanceMeters d
        end)) /\
  (forall (a0 : App) (draft : option DraftTrip) (events : list event)
          (now0 now1 now2 : Z) (watch0 timer0 watch' timer' : nat),
     let live :=
       exec (run events) (exec (startTracking now0 watch0 timer0 draft) a0) in
     let killed := exec (snapshotDraft now1) live in
     let resumed :=
       exec (handleResume now2 watch' timer')
         (boot (tripsStore killed) (draftStore killed)) in
     sessionOf resumed = sessionOf live).
Proof.
  intros s.
  assert (lastPointRef s = last (draft_points d)) as Hanchor
    by apply index_last.
  split; [|split].
  - repeat split; try done.
  - intros p s'. destruct (addPoint_filtered p s) as [_ Hf]. fold s' in Hf.
    destruct Hf as [v Hv Hgt | l Hacc El Hnear | l Hacc El Hfar | Hacc El];
      [by left | by left | right | right]; rewrite <- Hanchor, El; done.
  - intros a0 draft events now0 now1 now2 watch0 timer0 watch' timer' live.
    apply snapshot_resume_roundtrip.
    apply run_inProgress, startTracking_inProgress.
Qed.

End SampleFilter.

(** ** Finish and commit *)

Section FinishAndCommit.

Variable formatDate : Z -> string.
Variable generateTripInsight : Q -> Z -> string -> completion (option string).
Variable generatePosterPng : PosterArgs -> completion string.

#[local] Abbreviation finalize :=
  (Handlers.finalize formatDate generateTripInsight generatePosterPng).
#[local] Abbreviation handleFinalSave :=
  (Handlers.handleFinalSave formatDate generateTripInsight generatePosterPng).
#[local] Abbreviation commit :=
  (Handlers.commit formatDate generateTripInsight generatePosterPng).
#[local] Abbreviation commits :=
  (Handlers.commits formatDate generateTripInsight generatePosterPng).
#[local] Abbreviation committed :=
  (Handlers.committed formatDate generateTripInsight generatePosterPng).

(** The text of the alert of line 268. *)
#[local] Notation "'posterFailed'" :=
  "Poster failed to generate, but trip is saved.".

(** [handleFinalSave] on a review summary: it ends normally, and the state
    it leaves is decided by the outcome of the finalization steps. *)
Lemma handleFinalSave_on_summary id f a :
  finishScreen a = Some f ->
  handleFinalSave id a =
    (Normal tt,
     match finalize id f (isPrivate a) with
     | Normal trip =>
         set_isSaving false
           (set_finishScreen None
              (set_activeTrip (Some trip)
                 (set_tripsChanged true
                    (set_trips (trip :: trips a) (set_isSaving true a)))))
     | Throw e =>
         set_isSaving false
           (set_alerts (alerts a ++ [posterFailed]) (set_isSaving true a))
     end).
Proof.
  intros H. unfold Handlers.handleFinalSave, Handlers.finalize. act.
  rewrite H. cbn.
  destruct (generateTripInsight _ _ _) as [insight|e]; [|done].
  by destruct (generatePosterPng _) as [poster|e].
Qed.

Lemma handleFinalSave_idle id a :
  finishScreen a = None -> handleFinalSave id a = (Normal tt, a).
Proof. intros H. unfold Handlers.handleFinalSave. act. by rewrite H. Qed.

(** A commit from a state whose effects have all run. *)
Lemma commit_on_summary id f a :
  finishScreen a = Some f ->
  tripsChanged a = false ->
  commit id a =
    (Normal tt,
     match finalize id f (isPrivate a) with
     | Normal trip =>
         set_tripsChanged false
           (set_tripsStore (Some (Json (Js.slice0 50 (trip :: trips a))))
              (set_isSaving false
                 (set_finishScreen None
                    (set_activeTrip (Some trip)
                       (set_tripsChanged true
                          (set_trips (trip :: trips a)
                             (set_isSaving true a)))))))
     | Throw e =>
         set_isSaving false
           (set_alerts (alerts a ++ [posterFailed]) (set_isSaving true a))
     end).
Proof.
  intros H Hc. unfold Handlers.commit, bind at 1.
  rewrite (handleFinalSave_on_summary id f a H).
  destruct (finalize id f (isPrivate a)) as [trip|e]; unfold effect_saveTrips.
  - reflexivity.
  - act. by rewrite Hc.
Qed.

(** C4. When the poster renderer fails during a commit, the archive is
    left as it was, in memory and in localStorage, and no Trip is created:
    nothing is inserted and the Trip on display does not change. *)
Theorem C4_poster_failure_leaves_archive id f a e :
  finishScreen a = Some f ->
  tripsChanged a = false ->
  generatePosterPng (posterRequest formatDate f) = Throw e ->
  let a' := exec (commit id) a in
  trips a' = trips a /\
  tripsStore a' = tripsStore a /\
  activeTrip a' = activeTrip a /\
  tripsChanged a' = false.
Proof.
  intros H Hc Hp a'. subst a'. unfold exec.
  rewrite (commit_on_summary id f a H Hc). unfold Handlers.finalize.
  rewrite Hp. by destruct (generateTripInsight _ _ _).
Qed.

(** C5.  Where the insight collaborator throws, the commit does not go
    on without an insight: the await of line 234 stands in the try block
    of the poster, so the catch of line 267 takes the exception.  No Trip
    is created, the archive and the Trip on display are as they were, the
    summary stays under review and the user gets the alert that was
    written for a poster failure, whatever the poster renderer would have
    done. *)
Theorem C5_insight_rejection_fails_commit id f a e :
  finishScreen a = Some f ->
  generateTripInsight (fs_dist f) (fs_time f) "ACTIVITY" = Throw e ->
  let a' := exec (handleFinalSave id) a in
  trips a' = trips a /\
  ~ (exists trip, trips a' = trip :: trips a) /\
  activeTrip a' = activeTrip a /\
  tripsStore a' = tripsStore a /\
  finishScreen a' = Some f /\
  alerts a' = alerts a ++ [posterFailed].
Proof.
  intros H Hi a'. subst a'. unfold exec.
  rewrite (handleFinalSave_on_summary id f a H). unfold Handlers.finalize.
  rewrite Hi. cbn. split; [done|]. split; [|done].
  intros [trip E]. apply (f_equal length) in E. cbn in E. lia.
Qed.

(** C6, as the code has it.  When a commit fails, the user is alerted and
    the saving flag is cleared, but the review summary stays on screen as
    it was, so the session is still under review; nothing is added to the
    archive and tracking stays as it was. *)
Theorem C6_failed_commit_stays_in_review id f a e :
  finishScreen a = Some f ->
  finalize id f (isPrivate a) = Throw e ->
  let a' := exec (handleFinalSave id) a in
  finishScreen a' = Some f /\
  alerts a' = alerts a ++ [posterFailed] /\
  isSaving a' = false /\
  isTracking a' = isTracking a /\
  trips a' = trips a /\
  outcome (handleFinalSave id) a = Normal tt.
Proof.
  intros H Hf a'. subst a'. unfold exec, outcome.
  rewrite (handleFinalSave_on_summary id f a H), Hf. done.
Qed.

(** One step of a run of commits. *)
Lemma commits_cons f id rest a :
  tripsChanged a = false ->
  exec (commits ((f, id) :: rest)) a =
  exec (commits rest)
    (match finalize id f (isPrivate a) with
     | Normal trip =>
         set_tripsChanged false
           (set_tripsStore (Some (Json (Js.slice0 50 (trip :: trips a))))
              (set_isSaving false
                 (set_finishScreen None
                    (set_activeTrip (Some trip)
                       (set_tripsChanged true
                          (set_trips (trip :: trips a)
                             (set_isSaving true
                                (set_finishScreen (Some f) a))))))))
     | Throw e =>
         set_isSaving false
           (set_alerts (alerts a ++ [posterFailed])
              (set_isSaving true (set_finishScreen (Some f) a)))
     end).
Proof.
  intros Hc. unfold exec. cbn [Handlers.commits].
  unfold bind at 1, setFinishScreen at 1, modify at 1.
  unfold bind at 1.
  rewrite (commit_on_summary id f (set_finishScreen (Some f) a)) by done.
  reflexivity.
Qed.

Lemma commits_trips reqs a :
  tripsChanged a = false ->
  trips (exec (commits reqs) a) = rev (committed (isPrivate a) reqs) ++ trips a /\
  isPrivate (exec (commits reqs) a) = isPrivate a /\
  tripsChanged (exec (commits reqs) a) = false.
Proof.
  revert a. induction reqs as [|[f id] rest IH]; intros a Hc; [done|].
  rewrite commits_cons by done. cbn [Handlers.committed].
  destruct (finalize id f (isPrivate a)) as [trip|e].
  - edestruct IH as (-> & -> & ->); [reflexivity|]. cbn.
    by rewrite <- app_assoc.
  - edestruct IH as (-> & -> & ->); [exact Hc|]. done.
Qed.

Lemma commits_synced reqs a : synced a -> synced (exec (commits reqs) a).
Proof.
  revert a. induction reqs as [|[f id] rest IH]; intros a [Hc Hs]; [done|].
  rewrite commits_cons by done. apply IH.
  by destruct (finalize id f (isPrivate a)) as [trip|e].
Qed.

(** Every start of the process leaves the archive up to date on disk. *)
Lemma boot_synced rawTrips rawDraft : synced (boot rawTrips rawDraft).
Proof. unfold boot. act. by destruct rawDraft as [[]|]. Qed.

(** C7. Over any run of commits from an archive that is up to date on
    disk: the archive in memory is the new Trips, newest first, in front of
    the old ones; localStorage holds its first 50 entries, so at most 50;
    and a commit onto 50 stored entries stores the new Trip followed by
    the first 49, the last (oldest) one being dropped. *)
Theorem C7_archive_newest_first_capped reqs a :
  synced a ->
  let a' := exec (commits reqs) a in
  trips a' = rev (committed (isPrivate a) reqs) ++ trips a /\
  tripsStore a' = Some (Json (Js.slice0 50 (trips a'))) /\
  (forall kept, tripsStore a' = Some (Json kept) -> (length kept <= 50)%nat) /\
  (forall f id trip front oldest,
     finalize id f (isPrivate a') = Normal trip ->
     tripsStore a' = Some (Json (front ++ [oldest])) ->
     length (front ++ [oldest]) = 50 ->
     tripsStore (exec (commits [(f, id)]) a') = Some (Json (trip :: front)) /\
     trips (exec (commits [(f, id)]) a') = trip :: trips a').
Proof.
  intros Hs a'.
  destruct (commits_synced reqs a Hs) as [Hc' Hs']. fold a' in Hc', Hs'.
  destruct (commits_trips reqs a (proj1 Hs)) as (Ht & _ & _). fold a' in Ht.
  split; [exact Ht|]. split; [exact Hs'|]. split.
  - intros kept Hk.
    assert (kept = Js.slice0 50 (trips a')) as -> by congruence.
    unfold Js.slice0. rewrite length_take. lia.
  - intros f id trip front oldest Hf Hk Hlen.
    rewrite commits_cons by done. rewrite Hf. cbn. split; [|done].
    assert (take 50 (trips a') = front ++ [oldest]) as E
      by (unfold Js.slice0 in Hs'; congruence).
    apply (f_equal (take 49)) in E. rewrite take_take in E.
    rewrite length_app in Hlen. cbn in Hlen.
    rewrite take_app_length' in E by lia.
    unfold Js.slice0. change (take 50 (trip :: trips a'))
      with (trip :: take 49 (trips a')).
    by rewrite <- E.
Qed.

End FinishAndCommit.

(** ** Finishing a session *)

Section Finishing.

Variable formatTimeShort : Z -> string.
Variable confirm : string -> bool.

(** The question of line 188. *)
#[local] Notation "'stopAnyway'" := "No movement detected. Stop anyway?".

#[local] Abbreviation proceeds := (Handlers.proceeds confirm).
#[local] Abbreviation handleFinish :=
  (Handlers.handleFinish formatTimeShort confirm).

Lemma guard_false a :
  proceeds a ->
  (length (pointsRef a) <? 2)%nat && negb (confirm stopAnyway) = false.
Proof.
  intros [H|H].
  - apply andb_false_iff. left. apply Nat.ltb_ge. exact H.
  - rewrite H. apply andb_false_r.
Qed.

(** [reverseGeocode] catches what the lookup throws: it always ends
    normally, having made one request. *)
Lemma reverseGeocode_normal nominatim x y a :
  exists label a',
    reverseGeocode nominatim x y a = (Normal label, a') /\
    fetched a' = fetched a ++ [(x, y)] /\
    finishScreen a' = finishScreen a /\
    isSaving a' = isSaving a /\
    isTracking a' = isTracking a /\
    startTimeLabel a' = startTimeLabel a.
Proof.
  unfold reverseGeocode. act.
  destruct (nominatim x y) as [[[[addr|]]|]|e]; cbn;
    try (eexists _, _; split; [reflexivity | done]).
  destruct (_ && _); eexists _, _; (split; [reflexivity | done]).
Qed.

(** Runs the next lookup in the goal. *)
Ltac geocoded :=
  match goal with
  | |- context [reverseGeocode ?n ?x ?y ?s] =>
      destruct (reverseGeocode_normal n x y s) as (? & ? & -> & _)
  end.

(** C9. A session that is finished while private gets the start label
    "Start" and the end label "End" and makes no geocoding request; the
    whole outcome of the finish is the same whatever the geocoding lookup
    would answer. *)
Theorem C9_private_finish_skips_geocoding
    (nominatim nominatim' : Q -> Q -> completion (option GeoData))
    (now : Z) (a : App) :
  isPrivate a = true ->
  proceeds a ->
  let a' := exec (handleFinish nominatim now) a in
  (exists f, finishScreen a' = Some f /\
     fs_startLabel f = "Start" /\ fs_endLabel f = "End") /\
  fetched a' = fetched a /\
  outcome (handleFinish nominatim now) a = Normal tt /\
  handleFinish nominatim' now a =
  handleFinish nominatim now a.
Proof.
  intros Hp Hgo a'. subst a'. apply guard_false in Hgo.
  unfold Handlers.handleFinish, stopTracking. act. cbn in Hgo. rewrite Hgo. cbn.
  destruct (watchIdRef a); cbn; rewrite Hp; cbn;
    (split; [eexists; split; [reflexivity | done] | done]).
Qed.

(** C10. A public session that goes past the guard of [handleFinish]
    throws a TypeError exactly when no point was recorded: the lookup of the
    first point is [undefined] and reading its latitude throws.  The throw
    comes after tracking was stopped and the saving flag raised, and before
    any request or review summary; with a point recorded the finish ends
    normally. *)
Theorem C10_public_finish_needs_a_point
    (nominatim : Q -> Q -> completion (option GeoData)) (now : Z) (a : App) :
  isPrivate a = false ->
  proceeds a ->
  let finish := handleFinish nominatim now in
  (outcome finish a = Throw TypeError <-> pointsRef a = []) /\
  (pointsRef a = [] ->
     Js.index (pointsRef a) 0 = None /\
     finishScreen (exec finish a) = finishScreen a /\
     fetched (exec finish a) = fetched a /\
     isSaving (exec finish a) = true /\
     isTracking (exec finish a) = false) /\
  (pointsRef a <> [] -> outcome finish a = Normal tt).
Proof.
  intros Hp Hgo finish. subst finish. apply guard_false in Hgo.
  assert (pointsRef a = [] ->
          handleFinish nominatim now a =
          (Throw TypeError,
           set_gpsStatus "Idle"
             (set_isTracking false
                (set_draftStore None
                   (match watchIdRef a with
                    | Some _ => set_watchIdRef None (set_isSaving true a)
                    | None => set_isSaving true a
                    end))))) as Hempty.
  { intros He. unfold Handlers.handleFinish, stopTracking. act. cbn in Hgo.
    rewrite Hgo. cbn.
    destruct (watchIdRef a); cbn; rewrite Hp, He; reflexivity. }
  assert (pointsRef a <> [] ->
          outcome (handleFinish nominatim now) a =
          Normal tt) as Hsome.
  { intros Hne. unfold Handlers.handleFinish, stopTracking. act. cbn in Hgo.
    rewrite Hgo. cbn. rewrite index_last.
    destruct (pointsRef a) as [|p0 ps]; [done|].
    destruct (last (p0 :: ps)) as [pn|] eqn:El;
      [|by apply last_None in El].
    change (Js.index (p0 :: ps) 0) with (Some p0).
    destruct (watchIdRef a); cbn; rewrite Hp; cbn.
    all: geocoded; cbn; geocoded; reflexivity. }
  split; [split|split].
  - intros Hthrow. destruct (pointsRef a) as [|p0 ps] eqn:Hpts; [done|].
    rewrite Hsome in Hthrow; done.
  - intros He. unfold outcome. by rewrite Hempty.
  - intros He. unfold exec. rewrite Hempty by done. rewrite He.
    by destruct (watchIdRef a).
  - exact Hsome.
Qed.

End Finishing.

(** ** Geocoding *)

Section Geocoding.

Variable nominatim : Q -> Q -> completion (option GeoData).

#[local] Abbreviation reverseGeocode := (Handlers.reverseGeocode nominatim).

(** [reverseGeocode] in one step: the label of the reply, one request
    logged, and the failure, if any, on the console. *)
Lemma reverseGeocode_run x y a :
  reverseGeocode x y a =
    (Normal (placeLabel (nominatim x y)),
     match nominatim x y with
     | Normal _ => set_fetched (fetched a ++ [(x, y)]) a
     | Throw e =>
         set_consoleErrors (consoleErrors a ++ [e])
           (set_fetched (fetched a ++ [(x, y)]) a)
     end).
Proof.
  unfold Handlers.reverseGeocode, placeLabel. act.
  destruct (nominatim x y) as [[[[addr|]]|]|e]; cbn; try reflexivity.
  by destruct (_ && _).
Qed.

(** X1. [reverseGeocode] never throws, whatever the lookup does.  It makes
    exactly one request, for the coordinates it was given, and touches
    nothing else of the state but the console; when the lookup fails the
    label is empty and the failure is logged. *)
Theorem reverseGeocode_never_throws x y a :
  let a' := exec (reverseGeocode x y) a in
  (exists label, outcome (reverseGeocode x y) a = Normal label) /\
  fetched a' = fetched a ++ [(x, y)] /\
  a' = set_consoleErrors (consoleErrors a') (set_fetched (fetched a') a) /\
  (forall e, nominatim x y = Throw e ->
     outcome (reverseGeocode x y) a = Normal "" /\
     consoleErrors a' = consoleErrors a ++ [e]) /\
  (forall data, nominatim x y = Normal data ->
     consoleErrors a' = consoleErrors a).
Proof.
  intros a'. subst a'. unfold exec, outcome. rewrite reverseGeocode_run. cbn.
  split; [eauto|].
  destruct (nominatim x y) as [data|e]; cbn;
    (split; [done|]); (split; [by destruct a|]); split; try done.
  - intros e' [= <-]. done.
Qed.

Lemma truthy_or a b : Js.truthy (Js.or a b) = Js.truthy a || Js.truthy b.
Proof. unfold Js.or. by destruct (Js.truthy a) eqn:E. Qed.

Lemma truthy_or_undef f rest :
  Js.truthy (Js.or_undef f rest) = usable f || Js.truthy rest.
Proof. destruct f as [s|]; cbn; [apply truthy_or | done]. Qed.

Lemma truthy_empty s : Js.truthy s = false <-> s = "".
Proof. by destruct s. Qed.

(** X2. On a reply that carries an address, the label of [reverseGeocode]
    is empty exactly when none of the seven fields it reads (road,
    neighbourhood, suburb, city, town, village, county) is present and
    not empty. *)
Theorem reverseGeocode_empty_iff x y a addr :
  nominatim x y = Normal (Some (mkGeoData (Some addr))) ->
  outcome (reverseGeocode x y) a = Normal "" <->
  usable (road addr) || usable (neighbourhood addr) || usable (suburb addr)
  || usable (city addr) || usable (town addr) || usable (village addr)
  || usable (county addr) = false.
Proof.
  intros H. unfold outcome. rewrite reverseGeocode_run, H. cbn.
  set (r := Js.or_undef (road addr) _). set (ar := Js.or_undef (city addr) _).
  assert (Js.truthy r =
          usable (road addr) || usable (neighbourhood addr)
          || usable (suburb addr)) as Hr.
  { subst r. rewrite !truthy_or_undef. cbn. by rewrite orb_false_r, orb_assoc. }
  assert (Js.truthy ar =
          usable (city addr) || usable (town addr) || usable (village addr)
          || usable (county addr)) as Har.
  { subst ar. rewrite !truthy_or_undef. cbn.
    by rewrite orb_false_r, !orb_assoc. }
  assert (usable (road addr) || usable (neighbourhood addr)
          || usable (suburb addr) || usable (city addr) || usable (town addr)
          || usable (village addr) || usable (county addr) =
          Js.truthy r || Js.truthy ar) as ->
    by (rewrite Hr, Har; by rewrite !orb_assoc).
  split.
  - intros [= E]. apply truthy_empty in E.
    destruct (Js.truthy r) eqn:Er, (Js.truthy ar) eqn:Ear; cbn in *;
      try done.
    + destruct r; [done|]. by destruct ar.
    + by rewrite truthy_or, Er in E.
    + by rewrite truthy_or, truthy_or, Er, Ear in E.
  - intros E. apply orb_false_iff in E as [Er Ear]. rewrite Er, Ear. cbn.
    apply truthy_empty in Er, Ear. by rewrite Er, Ear.
Qed.

End Geocoding.

(** ** Leaving a session *)

Section Leaving.

Variable haversineMeters : GeoPoint -> GeoPoint -> Q.
Variable formatTimeShort : Z -> string.
Variable confirm : string -> bool.
Variable nominatim : Q -> Q -> completion (option GeoData).

#[local] Abbreviation proceeds := (Handlers.proceeds confirm).
#[local] Abbreviation handleFinish :=
  (Handlers.handleFinish formatTimeShort confirm nominatim).
#[local] Abbreviation reverseGeocode := (Handlers.reverseGeocode nominatim).
#[local] Abbreviation run := (Handlers.run haversineMeters).
#[local] Abbreviation step := (Handlers.step haversineMeters).

#[local] Arguments stopTracking : simpl never.
#[local] Arguments Handlers.reverseGeocode : simpl never.

Lemma stopTracking_run a :
  stopTracking a = (Normal tt, exec stopTracking a).
Proof. unfold stopTracking. act. by destruct (watchIdRef a). Qed.

(** X3. Declining the question of [handleFinish], which is asked when
    fewer than two points were recorded, leaves the component exactly as it
    was: still tracking, nothing stopped, nothing requested. *)
Theorem handleFinish_declined_changes_nothing now a :
  (length (pointsRef a) < 2)%nat ->
  confirm "No movement detected. Stop anyway?" = false ->
  handleFinish now a = (Normal tt, a).
Proof.
  intros Hlen Hno. unfold Handlers.handleFinish. act.
  apply Nat.ltb_lt in Hlen. cbn in Hlen. by rewrite Hlen, Hno.
Qed.

(** The state in which [handleFinish] leaves a session that produced a
    review summary. *)
Lemma handleFinish_private_run now a :
  isPrivate a = true ->
  proceeds a ->
  handleFinish now a =
    (Normal tt,
     set_finishScreen
       (Some (mkFinishScreen true "Start" "End" (pointsRef a)
                (distanceMeters a) (elapsedSec a) (default now (startedAt a))
                (startTimeLabel a) (formatTimeShort now)))
       (set_isSaving false (exec stopTracking (set_isSaving true a)))).
Proof.
  intros Hp Hgo. apply guard_false in Hgo.
  unfold Handlers.handleFinish, stopTracking. act. cbn in Hgo.
  rewrite Hgo. cbn. destruct (watchIdRef a); cbn; by rewrite Hp.
Qed.

Lemma handleFinish_public_run now a p0 ps pn :
  isPrivate a = false ->
  proceeds a ->
  pointsRef a = p0 :: ps ->
  last (p0 :: ps) = Some pn ->
  handleFinish now a =
    (Normal tt,
     set_finishScreen
       (Some (mkFinishScreen true
                (Js.or (placeLabel (nominatim (lat p0) (lng p0))) "Start")
                (Js.or (placeLabel (nominatim (lat pn) (lng pn))) "End")
                (pointsRef a) (distanceMeters a) (elapsedSec a)
                (default now (startedAt a)) (startTimeLabel a)
                (formatTimeShort now)))
       (set_isSaving false
          (exec (reverseGeocode (lat pn) (lng pn))
             (exec (reverseGeocode (lat p0) (lng p0))
                (exec stopTracking (set_isSaving true a)))))).
Proof.
  intros Hp Hgo Hpts Hlast. apply guard_false in Hgo.
  unfold Handlers.handleFinish. act. cbn in Hgo. rewrite Hgo. cbn.
  rewrite index_last, Hpts, Hlast.
  change (Js.index (p0 :: ps) 0) with (Some p0).
  rewrite stopTracking_run. cbn.
  assert (isPrivate (exec stopTracking (set_isSaving true a)) = false) as ->
    by (unfold stopTracking; act; by destruct (watchIdRef a)).
  assert (startTimeLabel (exec stopTracking (set_isSaving true a)) =
          startTimeLabel a) as Hlabel
    by (unfold stopTracking; act; by destruct (watchIdRef a)).
  cbn. unfold exec in *.
  set (s1 := (stopTracking (set_isSaving true a)).2) in *.
  rewrite !(reverseGeocode_run nominatim (lat p0) (lng p0) s1). cbn.
  rewrite !reverseGeocode_run. cbn.
  destruct (nominatim (lat p0) (lng p0)), (nominatim (lat pn) (lng pn)); cbn;
    by rewrite Hlabel.
Qed.

(** X4. A public session with at least one point that goes past the guard
    finishes normally after exactly two requests, for the first and for the
    last stored point in that order (the same point twice when only one
    was stored).  Each label is the one made of its own reply, or its
    placeholder when that label is empty, so neither label is ever empty. *)
Theorem handleFinish_public_lookups now a p0 ps pn :
  isPrivate a = false ->
  proceeds a ->
  pointsRef a = p0 :: ps ->
  last (p0 :: ps) = Some pn ->
  let a' := exec (handleFinish now) a in
  outcome (handleFinish now) a = Normal tt /\
  fetched a' = fetched a ++ [(lat p0, lng p0); (lat pn, lng pn)] /\
  exists f,
    finishScreen a' = Some f /\
    fs_startLabel f = Js.or (placeLabel (nominatim (lat p0) (lng p0))) "Start" /\
    fs_endLabel f = Js.or (placeLabel (nominatim (lat pn) (lng pn))) "End" /\
    fs_startLabel f <> "" /\
    fs_endLabel f <> "".
Proof.
  intros Hp Hgo Hpts Hlast a'. subst a'. unfold exec, outcome.
  rewrite (handleFinish_public_run now a p0 ps pn) by done. cbn.
  split; [done|]. split.
  - assert (fetched (exec stopTracking (set_isSaving true a)) = fetched a)
      as Hf by (unfold stopTracking; act; by destruct (watchIdRef a)).
    unfold exec in *. rewrite !reverseGeocode_run.
    destruct (nominatim (lat p0) (lng p0)), (nominatim (lat pn) (lng pn));
      cbn; by rewrite Hf, <- app_assoc.
  - eexists. split; [reflexivity|]. cbn. split; [done|]. split; [done|].
    split; unfold Js.or.
    + by destruct (placeLabel (nominatim (lat p0) (lng p0))).
    + by destruct (placeLabel (nominatim (lat pn) (lng pn))).
Qed.

(** What a finish that produces a review summary leaves behind. *)
Lemma handleFinish_reviewing now a :
  proceeds a ->
  isPrivate a = true \/ pointsRef a <> [] ->
  let a' := exec (handleFinish now) a in
  (exists f,
     finishScreen a' = Some f /\
     fs_points f = pointsRef a /\
     fs_dist f = distanceMeters a /\
     fs_time f = elapsedSec a /\
     fs_start f = default now (startedAt a) /\
     fs_startTimeStr f = startTimeLabel a /\
     fs_endTimeStr f = formatTimeShort now) /\
  outcome (handleFinish now) a = Normal tt /\
  isTracking a' = false /\
  draftStore a' = None /\
  isSaving a' = false /\
  gpsStatus a' = "Idle" /\
  trips a' = trips a /\
  isPrivate a' = isPrivate a /\
  pointsRef a' = pointsRef a.
Proof.
  intros Hgo Hok a'. subst a'. unfold exec, outcome.
  destruct (isPrivate a) eqn:Hp.
  - rewrite handleFinish_private_run by done. cbn.
    split; [eexists; split; [reflexivity|done]|].
    unfold stopTracking. act. destruct (watchIdRef a); cbn; by rewrite Hp.
  - destruct Hok as [|Hne]; [done|].
    destruct (pointsRef a) as [|p0 ps] eqn:Hpts; [done|].
    destruct (last (p0 :: ps)) as [pn|] eqn:Hlast;
      [|by apply last_None in Hlast].
    rewrite (handleFinish_public_run now a p0 ps pn) by done. cbn.
    split; [eexists; split; [reflexivity|by rewrite Hpts]|].
    split; [done|]. unfold exec. rewrite !reverseGeocode_run.
    unfold stopTracking. act.
    destruct (nominatim (lat p0) (lng p0)), (nominatim (lat pn) (lng pn)),
      (watchIdRef a); cbn; by rewrite ?Hp, ?Hpts.
Qed.

(** X5. Whenever [handleFinish] produces a review summary (the session is
    private, or public with a point stored), the summary holds the points,
    the distance, the elapsed seconds, the start and the start label of the
    session as they were; tracking is off, the draft is deleted, the saving
    flag is down, and the archive and the point buffer are untouched. *)
Theorem handleFinish_summary_is_the_session now a :
  proceeds a ->
  isPrivate a = true \/ pointsRef a <> [] ->
  let a' := exec (handleFinish now) a in
  (exists f,
     finishScreen a' = Some f /\
     fs_points f = pointsRef a /\
     fs_dist f = distanceMeters a /\
     fs_time f = elapsedSec a /\
     fs_start f = default now (startedAt a) /\
     fs_startTimeStr f = startTimeLabel a /\
     fs_endTimeStr f = formatTimeShort now) /\
  outcome (handleFinish now) a = Normal tt /\
  isTracking a' = false /\
  draftStore a' = None /\
  isSaving a' = false /\
  gpsStatus a' = "Idle" /\
  trips a' = trips a /\
  isPrivate a' = isPrivate a /\
  pointsRef a' = pointsRef a.
Proof. apply handleFinish_reviewing. Qed.

(** X6. [stopTracking] is idempotent.  It deletes the draft and turns
    tracking off but keeps what the session collected: points, anchor,
    distance, elapsed seconds, start and privacy flag. *)
Theorem stopTracking_idempotent a :
  exec stopTracking (exec stopTracking a) = exec stopTracking a /\
  sessionOf (exec stopTracking a) = sessionOf a /\
  draftStore (exec stopTracking a) = None /\
  isTracking (exec stopTracking a) = false /\
  outcome stopTracking a = Normal tt.
Proof.
  unfold stopTracking. act. destruct (watchIdRef a) eqn:E; cbn; by rewrite ?E.
Qed.

Lemma step_stopped e a :
  isTracking a = false ->
  isTracking (exec (step e) a) = false /\
  draftStore (exec (step e) a) = draftStore a.
Proof.
  intros Ht. destruct e as [p| |now]; cbn [Handlers.step].
  - destruct (addPoint_filtered haversineMeters p a) as [_ Hf].
    by destruct Hf.
  - done.
  - unfold snapshotDraft. act. by rewrite Ht.
Qed.

(** X7. Once tracking is stopped no late event brings the draft back:
    after [stopTracking], whatever samples, ticks and firings of the draft
    interval still arrive, localStorage holds no draft. *)
Theorem no_draft_after_stop (events : list event) a :
  draftStore (exec (run events) (exec stopTracking a)) = None.
Proof.
  assert (forall s, isTracking s = false ->
                    isTracking (exec (run events) s) = false /\
                    draftStore (exec (run events) s) = draftStore s) as H.
  { induction events as [|e es IH]; intros s Hs; [done|].
    rewrite run_cons.
    destruct (step_stopped e s Hs) as [Ht Hd].
    destruct (IH _ Ht) as [Ht' Hd']. split; congruence. }
  assert (isTracking (exec stopTracking a) = false /\
          draftStore (exec stopTracking a) = None) as [Ht Hd]
    by (unfold stopTracking; act; by destruct (watchIdRef a)).
  destruct (H _ Ht) as [_ ->]. exact Hd.
Qed.

End Leaving.

(** ** Counters of a session *)

Section Counters.

Variable haversineMeters : GeoPoint -> GeoPoint -> Q.
Variable formatTimeShort : Z -> string.

#[local] Abbreviation addPoint := (Handlers.addPoint haversineMeters).
#[local] Abbreviation filtered := (Handlers.filtered haversineMeters).
#[local] Abbreviation step := (Handlers.step haversineMeters).
#[local] Abbreviation run := (Handlers.run haversineMeters).
#[local] Abbreviation feed := (Handlers.feed haversineMeters).
#[local] Abbreviation pathLength := (Handlers.pathLength haversineMeters).
#[local] Abbreviation spaced := (Screen.spaced haversineMeters).
#[local] Abbreviation startTracking :=
  (Handlers.startTracking formatTimeShort true).

Lemma filtered_elapsed p a a' : filtered p a a' -> elapsedSec a' = elapsedSec a.
Proof. by intros []. Qed.

(** X8. Over any run of events of a session the elapsed seconds grow by
    the number of ticks and by nothing else: samples and firings of the
    draft interval leave them alone. *)
Theorem elapsed_counts_ticks (events : list event) a :
  elapsedSec (exec (run events) a) = (elapsedSec a + ticks events)%Z.
Proof.
  revert a. induction events as [|e es IH]; intros a.
  - cbn. lia.
  - rewrite run_cons, IH. destruct e as [p| |now]; cbn [Handlers.step ticks].
    + rewrite (filtered_elapsed p a); [done|]. apply addPoint_filtered.
    + cbn. lia.
    + unfold snapshotDraft. act. by destruct (isTracking a).
Qed.

(** The stored points only grow, at the end. *)
Lemma step_points_prefix e a :
  pointsRef a `prefix_of` pointsRef (exec (step e) a).
Proof.
  destruct e as [p| |now]; cbn [Handlers.step].
  - destruct (filtered_points haversineMeters p a _
                (proj2 (addPoint_filtered haversineMeters p a))) as [->| ->].
    + done.
    + by apply prefix_app_r.
  - done.
  - unfold snapshotDraft. act. by destruct (isTracking a).
Qed.

(** X9. The point buffer is append-only: over any run of events the points
    stored before are still there, in place, at the front of the buffer. *)
Theorem points_append_only (events : list event) a :
  pointsRef a `prefix_of` pointsRef (exec (run events) a).
Proof.
  revert a. induction events as [|e es IH]; intros a; [done|].
  rewrite run_cons. etrans; [apply step_points_prefix | apply IH].
Qed.

Lemma spaced_snoc ps p :
  spaced ps ->
  match last ps with
  | Some l => (1 <= haversineMeters l p)%Q
  | None => True
  end ->
  spaced (ps ++ [p]).
Proof.
  induction ps as [|a [|b ps] IH]; cbn; [done..|].
  intros [Hab Hs] Hl. split; [done|]. by apply IH.
Qed.

Lemma spaced_pathLength ps :
  spaced ps -> (inject_Z (Z.of_nat (length ps)) - 1 <= pathLength ps)%Q.
Proof.
  induction ps as [|a [|b ps] IH]; intros Hs.
  - by cbn.
  - by cbn.
  - destruct Hs as [Hab Hs]. specialize (IH Hs).
    change (pathLength (a :: b :: ps))
      with (haversineMeters a b + pathLength (b :: ps))%Q.
    change (length (a :: b :: ps)) with (S (length (b :: ps))).
    rewrite Nat2Z.inj_succ, <- Z.add_1_r, inject_Z_plus.
    apply Qle_trans
      with (1 + (inject_Z (Z.of_nat (length (b :: ps))) - 1))%Q.
    + apply Qle_lteq. right. change (inject_Z 1) with 1%Q. ring.
    + by apply Qplus_le_compat.
Qed.

(** Anchor at the end of a buffer whose points are a meter apart. *)
Lemma filtered_spaced p a a' :
  filtered p a a' ->
  lastPointRef a = last (pointsRef a) /\ spaced (pointsRef a) ->
  lastPointRef a' = last (pointsRef a') /\ spaced (pointsRef a').
Proof.
  intros Hf [Hl Hs].
  destruct Hf as [v Hv Hgt | l Hacc El Hnear | l Hacc El Hfar | Hacc El];
    cbn; try done.
  - split; [by rewrite last_snoc|]. apply spaced_snoc; [done|].
    by rewrite <- Hl, El.
  - split; [by rewrite last_snoc|]. apply spaced_snoc; [done|].
    by rewrite <- Hl, El.
Qed.

(** X10. In a session started from scratch any two consecutive stored
    points lie at least a meter apart, so the distance is at least the
    number of stored points less one. *)
Theorem stored_points_a_meter_apart now watch timer a (samples : list GeoPoint) :
  let s := exec (feed samples) (exec (startTracking now watch timer None) a) in
  spaced (pointsRef s) /\
  (inject_Z (Z.of_nat (length (pointsRef s))) - 1 <= distanceMeters s)%Q.
Proof.
  intros s.
  assert (lastPointRef s = last (pointsRef s) /\ spaced (pointsRef s)) as [_ Hs].
  { subst s. induction samples as [|p samples IH] using rev_ind; [done|].
    rewrite feed_snoc. eapply filtered_spaced; [apply addPoint_filtered|].
    exact IH. }
  split; [exact Hs|].
  destruct (run_coherent haversineMeters (map Sample samples) _
              (startTracking_fresh_coherent haversineMeters formatTimeShort
                 now watch timer a)) as [_ Hd].
  eapply Qle_trans; [by apply spaced_pathLength|].
  apply Qle_lteq. right. symmetry. exact Hd.
Qed.

End Counters.

(** ** Drafts and the start of the process *)

Section Restart.

Variable formatTimeShort : Z -> string.

#[local] Abbreviation handleResume := (Handlers.handleResume formatTimeShort).

(** X11. On a start of the process the resume banner flag is up exactly
    when localStorage holds a text that is not empty under the draft key,
    whether it parses or not; a missing key and the empty string raise no
    banner.  Nothing is resumed by itself: tracking is off, the session is
    empty and the stored text is left as it is. *)
Theorem boot_detects_draft rawTrips rawDraft :
  (hasDraft (boot rawTrips rawDraft) = true <->
   rawDraft <> None /\ rawDraft <> Some Blank) /\
  isTracking (boot rawTrips rawDraft) = false /\
  pointsRef (boot rawTrips rawDraft) = [] /\
  lastPointRef (boot rawTrips rawDraft) = None /\
  draftStore (boot rawTrips rawDraft) = rawDraft.
Proof.
  unfold boot. act. destruct rawDraft as [[| |d]|]; cbn;
    (split; [|done]); split; try done; by intros [].
Qed.

(** X12. Without a parseable draft [handleResume] starts nothing: the
    banner flag goes down and tracking and the session data stay as they
    were.  A text that is not empty and does not parse is removed from
    localStorage; the empty string is left there, the handler returns
    before it would remove it. *)
Theorem handleResume_without_draft geolocation now watch timer a :
  (forall d, draftStore a <> Some (Json d)) ->
  let a' := exec (handleResume geolocation now watch timer) a in
  hasDraft a' = false /\
  draftStore a' =
    match draftStore a with
    | Some Blank => Some Blank
    | _ => None
    end /\
  isTracking a' = isTracking a /\
  sessionOf a' = sessionOf a /\
  outcome (handleResume geolocation now watch timer) a = Normal tt.
Proof.
  intros Hno a'. subst a'. unfold Handlers.handleResume. act.
  destruct (draftStore a) as [[| |d]|] eqn:E; cbn; rewrite ?E; try done.
  by destruct (Hno d).
Qed.

(** X13. Where the browser has no geolocation, resuming a draft takes the
    banner down and alerts, and that is all: tracking does not start, the
    session data are not restored, and the draft stays in localStorage. *)
Theorem handleResume_without_geolocation now watch timer a d :
  draftStore a = Some (Json d) ->
  let a' := exec (handleResume false now watch timer) a in
  hasDraft a' = false /\
  alerts a' = alerts a ++ ["GPS not supported."] /\
  isTracking a' = isTracking a /\
  sessionOf a' = sessionOf a /\
  draftStore a' = Some (Json d).
Proof.
  intros Hd a'. subst a'. unfold Handlers.handleResume. act. by rewrite Hd.
Qed.

(** X14. What the archive is after a restart: the first 50 trips of the
    archive that was up to date on disk, hence all of them when there were
    at most 50; and the restart leaves the text on disk as it was. *)
Theorem archive_survives_restart a rawDraft :
  synced a ->
  trips (boot (tripsStore a) rawDraft) = take 50 (trips a) /\
  ((length (trips a) <= 50)%nat ->
   trips (boot (tripsStore a) rawDraft) = trips a) /\
  tripsStore (boot (tripsStore a) rawDraft) = tripsStore a.
Proof.
  intros [_ Hs]. rewrite Hs. unfold boot. act.
  destruct rawDraft as [[]|]; cbn; unfold Js.slice0.
  all: split; [done|]; split; [intros Hlen; by apply take_ge|].
  all: by rewrite take_take.
Qed.

(** X15. A missing or unparseable archive is read as the empty archive,
    and the first effect then writes the empty list over it. *)
Theorem corrupt_archive_is_empty rawTrips rawDraft :
  (forall ts, rawTrips <> Some (Json ts)) ->
  trips (boot rawTrips rawDraft) = [] /\
  tripsStore (boot rawTrips rawDraft) = Some (Json []).
Proof.
  intros Hno. unfold boot. act.
  destruct rawTrips as [[| |ts]|]; [| | by destruct (Hno ts) |];
    by destruct rawDraft as [[]|].
Qed.

End Restart.

(** ** The archive viewer *)

Section Viewer.

Variable formatDate : Z -> string.
Variable confirm : string -> bool.
Variable generatePosterPng : PosterOptions -> completion string.

#[local] Abbreviation forceRegenerate :=
  (Screen.forceRegenerate formatDate generatePosterPng).
#[local] Abbreviation regenerateRequest := (Screen.regenerateRequest formatDate).
#[local] Abbreviation onDeleteHistory := (Screen.onDeleteHistory confirm).

(** What [filter] keeps when the trip [active] is deleted. *)
Lemma filter_other_ids (active : Trip) (ts : list Trip) :
  let keep t := negb (String.eqb (trip_id t) (trip_id active)) in
  (forall t, t ∈ List.filter keep ts <-> t ∈ ts /\ trip_id t <> trip_id active) /\
  List.filter keep ts `sublist_of` ts.
Proof.
  intros keep. split.
  - intros t. rewrite !list_elem_of_In, filter_In. unfold keep.
    by rewrite negb_true_iff, String.eqb_neq.
  - induction ts as [|t ts IH]; [done|]. cbn.
    destruct (keep t); by constructor.
Qed.

(** X16. Deleting the trip on display, once confirmed, removes from the
    archive every trip with its id and no other, keeps the rest in their
    order, and closes the viewer; the effect that follows stores at most
    50 trips, none of them with that id.  Declined, it changes nothing. *)
Theorem delete_removes_exactly_that_id active a :
  activeTrip a = Some active ->
  let a' := exec (bind onDeleteHistory (fun _ => effect_saveTrips)) a in
  if confirm "Permanently delete this path?" then
    (forall t, t ∈ trips a' <-> t ∈ trips a /\ trip_id t <> trip_id active) /\
    trips a' `sublist_of` trips a /\
    activeTrip a' = None /\
    exists kept,
      tripsStore a' = Some (Json kept) /\
      (length kept <= 50)%nat /\
      forall t, t ∈ kept -> trip_id t <> trip_id active
  else
    exec onDeleteHistory a = a.
Proof.
  intros Ha a'. subst a'. unfold Screen.onDeleteHistory, effect_saveTrips.
  act. rewrite Ha. destruct (confirm _); cbn; [|done].
  destruct (filter_other_ids active (trips a)) as [Hin Hsub].
  split; [exact Hin|]. split; [exact Hsub|]. split; [done|].
  eexists. split; [reflexivity|]. unfold Js.slice0. split.
  - rewrite length_take. lia.
  - intros t Ht. by apply Hin, (subseteq_take 50).
Qed.

(** [forceRegenerate] in one step. *)
Lemma forceRegenerate_run trip a :
  forceRegenerate trip a =
    match generatePosterPng (regenerateRequest trip) with
    | Normal poster =>
        (Normal tt,
         set_isSaving false
           (set_activeTrip (Some (withPoster trip poster))
              (set_tripsChanged true
                 (set_trips
                    (map (fun t =>
                            if String.eqb (trip_id t) (trip_id trip)
                            then withPoster trip poster else t) (trips a))
                    (set_isSaving true a)))))
    | Throw e => (Throw e, set_isSaving false (set_isSaving true a))
    end.
Proof.
  unfold Screen.forceRegenerate. act.
  by destruct (generatePosterPng _).
Qed.

(** X17. When the renderer succeeds, [forceRegenerate] keeps the length,
    the order and the ids of the archive; the entry at each position is
    the one that was there, unless its id is the id of the given trip, in
    which case it becomes the given trip with the new poster.  That trip,
    with the new poster and every other field as given, goes on display
    and the saving flag is cleared. *)
Theorem forceRegenerate_replaces_poster trip poster a :
  generatePosterPng (regenerateRequest trip) = Normal poster ->
  let a' := exec (forceRegenerate trip) a in
  length (trips a') = length (trips a) /\
  map trip_id (trips a') = map trip_id (trips a) /\
  (forall i t, trips a !! i = Some t ->
     trips a' !! i =
       Some (if String.eqb (trip_id t) (trip_id trip)
             then withPoster trip poster else t)) /\
  activeTrip a' = Some (withPoster trip poster) /\
  isSaving a' = false /\
  outcome (forceRegenerate trip) a = Normal tt.
Proof.
  intros Hp a'. subst a'. unfold exec, outcome.
  rewrite forceRegenerate_run, Hp. cbn.
  split; [by rewrite length_map|]. split.
  - rewrite <- list_fmap_compose. apply list_fmap_ext. intros i t _. cbn.
    destruct (String.eqb_spec (trip_id t) (trip_id trip)); [|done].
    by cbn.
  - split; [|done]. intros i t Hi. by rewrite list_lookup_fmap, Hi.
Qed.

(** X18. When the renderer throws, [forceRegenerate] lets the exception
    out: there is no catch.  The archive, the trip on display and the
    alerts are as they were and the saving flag is cleared. *)
Theorem forceRegenerate_failure_propagates trip e a :
  generatePosterPng (regenerateRequest trip) = Throw e ->
  let a' := exec (forceRegenerate trip) a in
  outcome (forceRegenerate trip) a = Throw e /\
  trips a' = trips a /\
  tripsChanged a' = tripsChanged a /\
  activeTrip a' = activeTrip a /\
  alerts a' = alerts a /\
  isSaving a' = false.
Proof.
  intros Hp a'. subst a'. unfold exec, outcome.
  by rewrite forceRegenerate_run, Hp.
Qed.

End Viewer.

(** ** From the review screen to the archive *)

Section Review.

Variable formatTimeShort : Z -> string.
Variable formatDate : Z -> string.
Variable confirm : string -> bool.
Variable nominatim : Q -> Q -> completion (option GeoData).
Variable generateTripInsight : Q -> Z -> string -> completion (option string).
Variable generatePosterPng : PosterArgs -> completion string.

#[local] Abbreviation proceeds := (Handlers.proceeds confirm).
#[local] Abbreviation handleFinish :=
  (Handlers.handleFinish formatTimeShort confirm nominatim).
#[local] Abbreviation finalize :=
  (Handlers.finalize formatDate generateTripInsight generatePosterPng).
#[local] Abbreviation handleFinalSave :=
  (Handlers.handleFinalSave formatDate generateTripInsight generatePosterPng).
#[local] Abbreviation posterRequest := (Handlers.posterRequest formatDate).

(** X19. Pressing the commit button again after a commit that succeeded
    does nothing: the summary is gone, so the archive gets the Trip once,
    whatever id the second press would have used. *)
Theorem second_commit_is_idle id id' f trip a :
  finishScreen a = Some f ->
  finalize id f (isPrivate a) = Normal trip ->
  let a1 := exec (handleFinalSave id) a in
  exec (handleFinalSave id') a1 = a1 /\
  trips (exec (handleFinalSave id') a1) = trip :: trips a.
Proof.
  intros Hf Hok a1. subst a1. unfold exec.
  rewrite (handleFinalSave_on_summary _ _ _ id f a Hf), Hok. cbn [snd].
  by rewrite handleFinalSave_idle.
Qed.

(** X20. A commit that failed can be tried again: the summary is still
    there, and when the collaborators then succeed the Trip assembled from
    that same summary is put at the front of the archive, which the failed
    attempt left alone, and the review ends. *)
Theorem retry_after_failure_commits
    (insightThen : Q -> Z -> string -> completion (option string))
    (posterThen : PosterArgs -> completion string)
    id id' f e trip a :
  finishScreen a = Some f ->
  finalize id f (isPrivate a) = Throw e ->
  Handlers.finalize formatDate insightThen posterThen id' f (isPrivate a) =
    Normal trip ->
  let a' :=
    exec (Handlers.handleFinalSave formatDate insightThen posterThen id')
      (exec (handleFinalSave id) a) in
  trips a' = trip :: trips a /\
  activeTrip a' = Some trip /\
  finishScreen a' = None /\
  isSaving a' = false.
Proof.
  intros Hf Hfail Hok a'. subst a'. unfold exec.
  rewrite (handleFinalSave_on_summary _ _ _ id f a Hf), Hfail. cbn [snd].
  rewrite (handleFinalSave_on_summary _ _ _ id' f) by done. cbn.
  by rewrite Hok.
Qed.

(** X21. The labels typed on the review screen are the labels of the
    Trip and of the poster request, and editing them changes no other
    field of the summary: a commit after the two edits asks for the poster
    of the summary with the new labels and archives a Trip with those
    labels and the points, distance, duration and times of the summary. *)
Theorem edited_labels_reach_the_trip id f a startText endText insight poster :
  finishScreen a = Some f ->
  let f' :=
    mkFinishScreen (fs_show f) startText endText (fs_points f) (fs_dist f)
      (fs_time f) (fs_start f) (fs_startTimeStr f) (fs_endTimeStr f) in
  generateTripInsight (fs_dist f) (fs_time f) "ACTIVITY" = Normal insight ->
  generatePosterPng (posterRequest f') = Normal poster ->
  let a' :=
    exec (bind (editStartLabel startText)
            (fun _ => bind (editEndLabel endText)
                        (fun _ => handleFinalSave id))) a in
  poster_startLabel (posterRequest f') = startText /\
  poster_endLabel (posterRequest f') = endText /\
  exists trip,
    trips a' = trip :: trips a /\
    trip_startLabel trip = startText /\
    trip_endLabel trip = endText /\
    trip_points trip = fs_points f /\
    trip_distanceMeters trip = fs_dist f /\
    trip_durationSec trip = fs_time f /\
    trip_date trip = fs_start f /\
    trip_posterPngBase64 trip = poster /\
    trip_aiInsight trip = insight.
Proof.
  intros Hf f' Hi Hp a'. subst a'. split; [done|]. split; [done|].
  unfold exec, editStartLabel, editEndLabel.
  unfold bind at 1 2. unfold gets at 1. rewrite Hf.
  unfold setFinishScreen at 1, modify at 1. unfold bind at 1.
  unfold bind at 1, gets at 1. cbn [finishScreen set_finishScreen].
  unfold setFinishScreen at 1, modify at 1. cbn -[Handlers.handleFinalSave].
  rewrite (handleFinalSave_on_summary _ _ _ id f') by done.
  unfold Handlers.finalize. cbn [fs_dist fs_time f'].
  fold f'. rewrite Hi, Hp. cbn. eexists. split; [reflexivity|]. done.
Qed.

(** X22. From tracking to the archive.  A session that gets a review
    summary and whose commit succeeds is archived as it was recorded: the
    Trip at the front of the archive has the points, the distance, the
    elapsed seconds, the start and the privacy flag that the session had
    when it was finished; the review is over, tracking is off and the draft
    is gone. *)
Theorem finished_session_is_archived_as_recorded now id a :
  proceeds a ->
  isPrivate a = true \/ pointsRef a <> [] ->
  (forall f, exists trip, finalize id f (isPrivate a) = Normal trip) ->
  let a' := exec (bind (handleFinish now) (fun _ => handleFinalSave id)) a in
  exists trip,
    trips a' = trip :: trips a /\
    trip_id trip = id /\
    trip_points trip = pointsRef a /\
    trip_distanceMeters trip = distanceMeters a /\
    trip_durationSec trip = elapsedSec a /\
    trip_date trip = default now (startedAt a) /\
    trip_isPrivate trip = isPrivate a /\
    finishScreen a' = None /\
    isTracking a' = false /\
    draftStore a' = None.
Proof.
  intros Hgo Hok Hall a'. subst a'.
  destruct (handleFinish_reviewing formatTimeShort confirm
              nominatim now a Hgo Hok)
    as ((f & Hf & Hpts & Hd & Ht & Hs & _) & Hn & Htr & Hdr & _ & _ & Htrips
        & Hpriv & _).
  unfold exec, outcome in *. unfold bind.
  destruct (handleFinish now a) as [c a1]. cbn [fst snd] in *. subst c.
  rewrite (handleFinalSave_on_summary _ _ _ id f a1 Hf).
  destruct (Hall f) as [trip Hfin]. rewrite Hpriv, Hfin. cbn.
  unfold Handlers.finalize in Hfin.
  destruct (generateTripInsight _ _ _) as [insight|]; [|done].
  destruct (generatePosterPng _) as [poster|]; [|done].
  injection Hfin as <-. cbn.
  exists (newTrip id f (isPrivate a) poster insight).
  by rewrite Htrips, <- Hpts, <- Hd, <- Ht, <- Hs.
Qed.

(** X23. Back to recording does not go back to recording: after a finish
    that produced a summary, pressing it leaves no summary, tracking off,
    no draft in localStorage and the archive as it was; a commit pressed
    after it does nothing. *)
Theorem back_to_recording_abandons now id a :
  proceeds a ->
  isPrivate a = true \/ pointsRef a <> [] ->
  let a' := exec (bind (handleFinish now) (fun _ => onBackToRecording)) a in
  finishScreen a' = None /\
  isTracking a' = false /\
  draftStore a' = None /\
  trips a' = trips a /\
  exec (handleFinalSave id) a' = a'.
Proof.
  intros Hgo Hok a'. subst a'.
  destruct (handleFinish_reviewing formatTimeShort confirm
              nominatim now a Hgo Hok)
    as (_ & Hn & Htr & Hdr & _ & _ & Htrips & _).
  unfold exec, outcome in *. unfold bind.
  destruct (handleFinish now a) as [c a1]. cbn [fst snd] in *. subst c.
  unfold onBackToRecording, setFinishScreen, modify.
  cbn -[Handlers.handleFinalSave].
  repeat (split; [done|]). by rewrite handleFinalSave_idle.
Qed.

(** X24. With a poster renderer that succeeds, a commit goes through for
    every value the insight collaborator returns, an absent one included:
    the Trip at the front of the archive carries that value as its insight,
    goes on display, and the review summary is closed without an alert. *)
Theorem returned_insight_is_kept id f a insight poster :
  finishScreen a = Some f ->
  generateTripInsight (fs_dist f) (fs_time f) "ACTIVITY" = Normal insight ->
  generatePosterPng (posterRequest f) = Normal poster ->
  let a' := exec (handleFinalSave id) a in
  exists trip,
    trips a' = trip :: trips a /\
    activeTrip a' = Some trip /\
    trip_aiInsight trip = insight /\
    trip = newTrip id f (isPrivate a) poster insight /\
    finishScreen a' = None /\
    alerts a' = alerts a.
Proof.
  intros H Hi Hp a'. subst a'. unfold exec.
  rewrite (handleFinalSave_on_summary _ _ _ id f a H).
  unfold Handlers.finalize. rewrite Hi, Hp. cbn.
  eexists. repeat split; reflexivity.
Qed.

End Review.

(** ** The theorems at concrete inputs *)

Import Examples.

(** The scenario of section 8 of the specification: of [A], [B], [C],
    [D] the filter keeps [A], [B], [D]; [C] is never the anchor. *)
Example scenario_ABCD :
  pointsRef tracked = [A; B; D] /\
  lastPointRef tracked = Some D /\
  (distanceMeters tracked == gridMeters A B + gridMeters B D)%Q /\
  lastPointRef (exec (addPoint gridMeters C) atB) = Some B.
Proof. by vm_compute. Qed.

(** [C] arrives with accuracy 200 while [B] is the anchor; [A], which has no
    accuracy, arrives first. *)
Lemma C2_weak_accuracy_rejected_witness :
  (gpsStatus (exec (addPoint gridMeters C) atB) = "Weak GPS ⚠️" /\
   distanceMeters (exec (addPoint gridMeters C) atB) = distanceMeters atB /\
   pointsRef (exec (addPoint gridMeters C) atB) = pointsRef atB /\
   lastPointRef (exec (addPoint gridMeters C) atB) = lastPointRef atB) /\
  gpsStatus (exec (addPoint gridMeters A) started) = "Good GPS ✅".
Proof.
  split.
  - apply (proj1 (C2_weak_accuracy_rejected gridMeters atB C) 200%Q);
      vm_compute; reflexivity.
  - apply (proj2 (C2_weak_accuracy_rejected gridMeters started A)).
    vm_compute; reflexivity.
Defined.

(** [B'] arrives half a meter from the anchor [B], with accuracy 5. *)
Lemma C3_jitter_rejected_witness :
  distanceMeters (exec (addPoint gridMeters B') atB) = distanceMeters atB /\
  pointsRef (exec (addPoint gridMeters B') atB) = pointsRef atB /\
  lastPointRef (exec (addPoint gridMeters B') atB) = lastPointRef atB /\
  gpsStatus (exec (addPoint gridMeters B') atB) = "Good GPS ✅".
Proof.
  apply (C3_jitter_rejected gridMeters atB B' B).
  - vm_compute; reflexivity.
  - intros v [= <-]. vm_compute. discriminate.
  - vm_compute; reflexivity.
Defined.

(** The poster renderer throws on the summary under review. *)
Lemma C4_poster_failure_leaves_archive_witness :
  trips (exec (commit calendar insightOk posterFails "TR-1") reviewing) =
    trips reviewing /\
  tripsStore (exec (commit calendar insightOk posterFails "TR-1") reviewing) =
    tripsStore reviewing /\
  activeTrip (exec (commit calendar insightOk posterFails "TR-1") reviewing) =
    activeTrip reviewing /\
  tripsChanged (exec (commit calendar insightOk posterFails "TR-1") reviewing) =
    false.
Proof.
  apply (C4_poster_failure_leaves_archive calendar insightOk posterFails
           "TR-1" summary reviewing (Rejected "canvas context unavailable"));
    vm_compute; reflexivity.
Defined.

(** The insight collaborator throws on the summary under review; the
    poster renderer would have worked. *)
Lemma C5_insight_rejection_fails_commit_witness :
  insightFails (fs_dist summary) (fs_time summary) "ACTIVITY" =
    Throw (Rejected "quota exceeded") /\
  posterOk (posterRequest calendar summary) =
    Normal "data:image/png;base64,AAAA" /\
  trips (exec (handleFinalSave calendar insightFails posterOk "TR-1")
           reviewing) = trips reviewing /\
  ~ (exists trip,
       trips (exec (handleFinalSave calendar insightFails posterOk "TR-1")
                reviewing) = trip :: trips reviewing) /\
  finishScreen (exec (handleFinalSave calendar insightFails posterOk "TR-1")
                  reviewing) = Some summary /\
  alerts (exec (handleFinalSave calendar insightFails posterOk "TR-1")
            reviewing) =
    alerts reviewing ++ ["Poster failed to generate, but trip is saved."].
Proof.
  split; [vm_compute; reflexivity|]. split; [vm_compute; reflexivity|].
  destruct (C5_insight_rejection_fails_commit calendar insightFails posterOk
              "TR-1" summary reviewing (Rejected "quota exceeded"))
    as (Ht & Hno & _ & _ & Hf & Ha).
  - vm_compute; reflexivity.
  - vm_compute; reflexivity.
  - split; [exact Ht|]. split; [exact Hno|]. split; [exact Hf | exact Ha].
Defined.

(** C6, where it fails: the poster renderer throws, the commit fails, and
    the review summary is still the active screen. *)
Lemma C6_counterexample_summary_stays :
  finishScreen reviewing = Some summary /\
  finalize calendar insightOk posterFails "TR-1" summary (isPrivate reviewing) =
    Throw (Rejected "canvas context unavailable") /\
  finishScreen (exec (commit calendar insightOk posterFails "TR-1") reviewing) =
    Some summary /\
  finishScreen (exec (commit calendar insightOk posterFails "TR-1") reviewing)
    <> None.
Proof.
  split; [vm_compute; reflexivity|].
  split; [vm_compute; reflexivity|].
  split; [vm_compute; reflexivity|].
  vm_compute. discriminate.
Qed.

(** The poster renderer throws on the summary under review. *)
Lemma C6_failed_commit_stays_in_review_witness :
  finishScreen (exec (handleFinalSave calendar insightOk posterFails "TR-1")
                  reviewing) = Some summary /\
  alerts (exec (handleFinalSave calendar insightOk posterFails "TR-1")
            reviewing) =
    alerts reviewing ++ ["Poster failed to generate, but trip is saved."] /\
  isSaving (exec (handleFinalSave calendar insightOk posterFails "TR-1")
              reviewing) = false /\
  isTracking (exec (handleFinalSave calendar insightOk posterFails "TR-1")
                reviewing) = isTracking reviewing /\
  trips (exec (handleFinalSave calendar insightOk posterFails "TR-1")
           reviewing) = trips reviewing /\
  outcome (handleFinalSave calendar insightOk posterFails "TR-1") reviewing =
    Normal tt.
Proof.
  apply (C6_failed_commit_stays_in_review calendar insightOk posterFails
           "TR-1" summary reviewing (Rejected "canvas context unavailable"));
    vm_compute; reflexivity.
Defined.

(** The 51st trip on an archive of fifty. *)
Lemma C7_archive_newest_first_capped_witness :
  synced full /\
  length (trips full) = 50%nat /\
  tripsStore
    (exec (commits calendar insightOk posterOk [(summary, "TR-51")])
       (exec (commits calendar insightOk posterOk []) full)) =
  Some (Json (newTrip "TR-51" summary false "data:image/png;base64,AAAA"
                (Some "A fine walk.") :: replicate 49 someTrip)).
Proof.
  assert (synced full) as Hs by (split; vm_compute; reflexivity).
  split; [exact Hs|]. split; [vm_compute; reflexivity|].
  apply (proj2 (proj2 (proj2
           (C7_archive_newest_first_capped calendar insightOk posterOk [] full
              Hs)))
           summary "TR-51"
           (newTrip "TR-51" summary false "data:image/png;base64,AAAA"
              (Some "A fine walk."))
           (replicate 49 someTrip) someTrip);
    vm_compute; reflexivity.
Defined.

(** The private session of three points, finished online and offline. *)
Lemma C9_private_finish_skips_geocoding_witness :
  isPrivate trackedPrivate = true /\
  (exists f,
     finishScreen (exec (handleFinish clock no online 20000) trackedPrivate) =
       Some f /\
     fs_startLabel f = "Start" /\ fs_endLabel f = "End") /\
  fetched (exec (handleFinish clock no online 20000) trackedPrivate) = [] /\
  handleFinish clock no offline 20000 trackedPrivate =
  handleFinish clock no online 20000 trackedPrivate.
Proof.
  assert (isPrivate trackedPrivate = true) as Hp by (vm_compute; reflexivity).
  assert (proceeds no trackedPrivate) as Hgo by (left; vm_compute; lia).
  destruct (C9_private_finish_skips_geocoding clock no online offline 20000
              trackedPrivate Hp Hgo) as (Hf & Hn & _ & Hi).
  split; [exact Hp|]. split; [exact Hf|]. split; [exact Hn | exact Hi].
Defined.

(** A public session finished before any point arrived, and after three. *)
Lemma C10_public_finish_needs_a_point_witness :
  isPrivate started = false /\
  pointsRef started = [] /\
  outcome (handleFinish clock yes online 20000) started = Throw TypeError /\
  outcome (handleFinish clock yes online 20000) tracked = Normal tt.
Proof.
  assert (isPrivate started = false) as Hp by (vm_compute; reflexivity).
  assert (pointsRef started = []) as He by (vm_compute; reflexivity).
  split; [exact Hp|]. split; [exact He|]. split.
  - apply (proj1 (C10_public_finish_needs_a_point clock yes online 20000
                    started Hp (or_intror eq_refl))).
    exact He.
  - apply (proj2 (proj2 (C10_public_finish_needs_a_point clock yes online
                           20000 tracked eq_refl (or_intror eq_refl)))).
    discriminate.
Defined.

(** ** The further theorems at concrete inputs *)

(** The lookup fails while the device is offline. *)
Lemma reverseGeocode_never_throws_witness :
  outcome (reverseGeocode offline 0 0) fresh = Normal "" /\
  consoleErrors (exec (reverseGeocode offline 0 0) fresh) =
    [Rejected "Failed to fetch"].
Proof.
  apply (proj1 (proj2 (proj2 (proj2
           (reverseGeocode_never_throws offline 0 0 fresh))))
           (Rejected "Failed to fetch")).
  vm_compute; reflexivity.
Defined.

(** An address with no field set gives the empty label. *)
Lemma reverseGeocode_empty_iff_witness :
  outcome (reverseGeocode nowhere 0 0) fresh = Normal "".
Proof.
  assert (nowhere 0 0 =
          Normal (Some (mkGeoData
                          (Some (mkAddress None None None None None None
                                   None))))) as Hr by reflexivity.
  apply (proj2 (reverseGeocode_empty_iff nowhere 0 0 fresh _ Hr)).
  vm_compute; reflexivity.
Defined.

(** The session that has stored nothing yet, and a user who says no. *)
Lemma handleFinish_declined_changes_nothing_witness :
  handleFinish clock no online 20000 started = (Normal tt, started).
Proof.
  apply (handleFinish_declined_changes_nothing clock no online 20000 started).
  - vm_compute; lia.
  - vm_compute; reflexivity.
Defined.

(** The session of [A], [B], [D], finished online. *)
Lemma handleFinish_public_lookups_witness :
  outcome (handleFinish clock yes online 20000) tracked = Normal tt /\
  fetched (exec (handleFinish clock yes online 20000) tracked) =
    fetched tracked ++ [(lat A, lng A); (lat D, lng D)].
Proof.
  destruct (handleFinish_public_lookups clock yes online 20000 tracked
              A [B; D] D) as (Hn & Hf & _).
  - vm_compute; reflexivity.
  - right. vm_compute; reflexivity.
  - vm_compute; reflexivity.
  - vm_compute; reflexivity.
  - split; [exact Hn | exact Hf].
Defined.

Lemma handleFinish_summary_is_the_session_witness :
  isTracking (exec (handleFinish clock yes online 20000) tracked) = false /\
  draftStore (exec (handleFinish clock yes online 20000) tracked) = None /\
  pointsRef (exec (handleFinish clock yes online 20000) tracked) =
    pointsRef tracked.
Proof.
  destruct (handleFinish_summary_is_the_session clock yes online 20000
              tracked) as (_ & _ & Ht & Hd & _ & _ & _ & _ & Hp).
  - right. vm_compute; reflexivity.
  - right. vm_compute. discriminate.
  - split; [exact Ht|]. split; [exact Hd | exact Hp].
Defined.

(** An unparseable draft, and the empty string in its place. *)
Lemma handleResume_without_draft_witness :
  hasDraft garbled = true /\
  hasDraft (exec (handleResume clock true 30000 3 4) garbled) = false /\
  draftStore (exec (handleResume clock true 30000 3 4) garbled) = None /\
  isTracking (exec (handleResume clock true 30000 3 4) garbled) =
    isTracking garbled /\
  hasDraft blanked = false /\
  draftStore (exec (handleResume clock true 30000 3 4) blanked) = Some Blank.
Proof.
  split; [vm_compute; reflexivity|].
  destruct (handleResume_without_draft clock true 30000 3 4 garbled)
    as (Hh & Hd & Ht & _).
  { intros d. vm_compute. discriminate. }
  destruct (handleResume_without_draft clock true 30000 3 4 blanked)
    as (_ & Hb & _).
  { intros d. vm_compute. discriminate. }
  split; [exact Hh|]. split; [exact Hd|]. split; [exact Ht|].
  split; [vm_compute; reflexivity | exact Hb].
Defined.

(** The draft of the session at [B], on a device without geolocation. *)
Lemma handleResume_without_geolocation_witness :
  isTracking (exec (handleResume clock false 30000 3 4) survivor) =
    isTracking survivor /\
  sessionOf (exec (handleResume clock false 30000 3 4) survivor) =
    sessionOf survivor /\
  draftStore (exec (handleResume clock false 30000 3 4) survivor) =
    Some (Json (draftOf 7000 atB)).
Proof.
  destruct (handleResume_without_geolocation clock 30000 3 4 survivor
              (draftOf 7000 atB)) as (_ & _ & Ht & Hs & Hd).
  - vm_compute; reflexivity.
  - split; [exact Ht|]. split; [exact Hs | exact Hd].
Defined.

(** The archive of fifty, restarted. *)
Lemma archive_survives_restart_witness :
  trips (boot (tripsStore full) None) = trips full.
Proof.
  assert (synced full) as Hs by (split; vm_compute; reflexivity).
  apply (proj1 (proj2 (archive_survives_restart full None Hs))).
  vm_compute; lia.
Defined.

Lemma corrupt_archive_is_empty_witness :
  trips (boot (Some Unparseable) None) = [] /\
  tripsStore (boot (Some Unparseable) None) = Some (Json []).
Proof.
  apply (corrupt_archive_is_empty (Some Unparseable) None).
  intros ts. discriminate.
Defined.

(** The archive of fifty copies of one trip, that trip on display. *)
Lemma delete_removes_exactly_that_id_witness :
  trips (exec (bind (onDeleteHistory yes) (fun _ => effect_saveTrips)) viewing)
    `sublist_of` trips viewing /\
  activeTrip
    (exec (bind (onDeleteHistory yes) (fun _ => effect_saveTrips)) viewing) =
    None.
Proof.
  destruct (delete_removes_exactly_that_id yes someTrip viewing)
    as (_ & Hs & Ha & _).
  - vm_compute; reflexivity.
  - split; [exact Hs | exact Ha].
Defined.

Lemma forceRegenerate_replaces_poster_witness :
  length (trips (exec (forceRegenerate calendar rendererOk someTrip) viewing)) =
    length (trips viewing) /\
  activeTrip (exec (forceRegenerate calendar rendererOk someTrip) viewing) =
    Some (withPoster someTrip "data:image/png;base64,BBBB").
Proof.
  destruct (forceRegenerate_replaces_poster calendar rendererOk someTrip
              "data:image/png;base64,BBBB" viewing)
    as (Hl & _ & _ & Ha & _).
  - vm_compute; reflexivity.
  - split; [exact Hl | exact Ha].
Defined.

Lemma forceRegenerate_failure_propagates_witness :
  outcome (forceRegenerate calendar rendererFails someTrip) viewing =
    Throw (Rejected "canvas context unavailable") /\
  trips (exec (forceRegenerate calendar rendererFails someTrip) viewing) =
    trips viewing.
Proof.
  destruct (forceRegenerate_failure_propagates calendar rendererFails someTrip
              (Rejected "canvas context unavailable") viewing)
    as (Ho & Ht & _).
  - vm_compute; reflexivity.
  - split; [exact Ho | exact Ht].
Defined.

(** The summary under review, committed, and the button pressed again. *)
Lemma second_commit_is_idle_witness :
  trips (exec (handleFinalSave calendar insightOk posterOk "TR-2")
           (exec (handleFinalSave calendar insightOk posterOk "TR-1")
              reviewing)) =
  newTrip "TR-1" summary false "data:image/png;base64,AAAA"
    (Some "A fine walk.") :: trips reviewing.
Proof.
  destruct (second_commit_is_idle calendar insightOk posterOk "TR-1" "TR-2"
              summary
              (newTrip "TR-1" summary false "data:image/png;base64,AAAA"
                 (Some "A fine walk.")) reviewing) as [_ Ht].
  - vm_compute; reflexivity.
  - vm_compute; reflexivity.
  - exact Ht.
Defined.

(** The renderer fails, then works. *)
Lemma retry_after_failure_commits_witness :
  trips (exec (handleFinalSave calendar insightOk posterOk "TR-2")
           (exec (handleFinalSave calendar insightOk posterFails "TR-1")
              reviewing)) =
  newTrip "TR-2" summary false "data:image/png;base64,AAAA"
    (Some "A fine walk.") :: trips reviewing.
Proof.
  destruct (retry_after_failure_commits calendar insightOk posterFails
              insightOk posterOk "TR-1" "TR-2" summary
              (Rejected "canvas context unavailable")
              (newTrip "TR-2" summary false "data:image/png;base64,AAAA"
                 (Some "A fine walk.")) reviewing) as [Ht _].
  - vm_compute; reflexivity.
  - vm_compute; reflexivity.
  - vm_compute; reflexivity.
  - exact Ht.
Defined.

Lemma edited_labels_reach_the_trip_witness :
  exists trip,
    trips (exec (bind (editStartLabel "Home")
                   (fun _ => bind (editEndLabel "Office")
                      (fun _ => handleFinalSave calendar insightOk posterOk
                                  "TR-1"))) reviewing) =
      trip :: trips reviewing /\
    trip_startLabel trip = "Home" /\
    trip_endLabel trip = "Office".
Proof.
  destruct (edited_labels_reach_the_trip calendar insightOk posterOk "TR-1"
              summary reviewing "Home" "Office" (Some "A fine walk.")
              "data:image/png;base64,AAAA")
    as (_ & _ & trip & Ht & Hs & He & _).
  - vm_compute; reflexivity.
  - vm_compute; reflexivity.
  - vm_compute; reflexivity.
  - exists trip. split; [exact Ht|]. split; [exact Hs | exact He].
Defined.

(** The private session of three points, finished and committed. *)
Lemma finished_session_is_archived_as_recorded_witness :
  exists trip,
    trips (exec (bind (handleFinish clock no online 20000)
                   (fun _ => handleFinalSave calendar insightOk posterOk
                               "TR-1")) trackedPrivate) =
      trip :: trips trackedPrivate /\
    trip_points trip = pointsRef trackedPrivate /\
    trip_distanceMeters trip = distanceMeters trackedPrivate.
Proof.
  destruct (finished_session_is_archived_as_recorded clock calendar no online
              insightOk posterOk 20000 "TR-1" trackedPrivate)
    as (trip & Ht & _ & Hp & Hd & _).
  - left. vm_compute; lia.
  - left. vm_compute; reflexivity.
  - intros f. eexists. reflexivity.
  - exists trip. split; [exact Ht|]. split; [exact Hp | exact Hd].
Defined.

Lemma back_to_recording_abandons_witness :
  finishScreen (exec (bind (handleFinish clock yes online 20000)
                        (fun _ => onBackToRecording)) tracked) = None /\
  isTracking (exec (bind (handleFinish clock yes online 20000)
                      (fun _ => onBackToRecording)) tracked) = false /\
  draftStore (exec (bind (handleFinish clock yes online 20000)
                      (fun _ => onBackToRecording)) tracked) = None.
Proof.
  destruct (back_to_recording_abandons clock calendar yes online insightOk
              posterOk 20000 "TR-1" tracked) as (Hf & Ht & Hd & _).
  - right. vm_compute; reflexivity.
  - right. vm_compute. discriminate.
  - split; [exact Hf|]. split; [exact Ht | exact Hd].
Defined.

(** The insight collaborator returns no text and the poster renderer works. *)
Lemma returned_insight_is_kept_witness :
  exists trip,
    trips (exec (handleFinalSave calendar insightAbsent posterOk "TR-1")
             reviewing) = trip :: trips reviewing /\
    trip_aiInsight trip = None /\
    finishScreen (exec (handleFinalSave calendar insightAbsent posterOk "TR-1")
                    reviewing) = None.
Proof.
  destruct (returned_insight_is_kept calendar insightAbsent posterOk "TR-1"
              summary reviewing None "data:image/png;base64,AAAA")
    as (trip & Ht & _ & Hi & _ & Hf & _).
  - vm_compute; reflexivity.
  - vm_compute; reflexivity.
  - vm_compute; reflexivity.
  - exists trip. split; [exact Ht|]. split; [exact Hi | exact Hf].
Defined.
